(** * fedmsg.meta: processor registry, dispatch, legacy fallback, conglomerate

    A shallow embedding of [fedmsg/meta/__init__.py].  Python dictionaries
    are finite maps with string keys, Python exceptions are the error side
    of a small result monad, and the module global [processors] is passed
    explicitly to every function that reads it. *)

From stdpp Require Import gmap strings list fin_maps.

Local Set Warnings "-register-all".

(** ** Python values *)

(** The JSON-like values that occur in messages and in conglomerate
    records.  Numbers are carried around untouched, so integers stand for
    them. *)
Inductive value : Type :=
| VNone
| VBool (b : bool)
| VNum (n : Z)
| VStr (s : string)
| VList (l : list value)
| VSet (s : gset string)
| VDict (d : gmap string value).

(** A message is a dict; [**config] is a dict of keyword arguments, whose
    values are data of the kind above.  The decorated queries have
    parameters named [legacy] and [processor], so the [**config] they
    receive never has these keys; the keywords of [conglomerate] can
    have them, and [keyword_call] below says where they go. *)
Abbreviation message := (gmap string value).
Abbreviation config := (gmap string value).

(** [x is None] *)
Definition is_None (v : value) : bool :=
  match v with
  | VNone => true
  | _ => false
  end.

(** [bool(v)] *)
Definition truthy (v : value) : bool :=
  match v with
  | VNone => false
  | VBool b => b
  | VNum n => negb (Z.eqb n 0)
  | VStr s => negb (String.eqb s "")
  | VList l => negb (Nat.eqb (length l) 0)
  | VSet s => negb (Nat.eqb (size s) 0)
  | VDict d => negb (Nat.eqb (size d) 0)
  end.

(** [key in d] *)
Definition contains (d : message) (key : string) : bool :=
  bool_decide (is_Some (d !! key)).

(** ** Exceptions and results *)

(** Instances of [Exception]: the classes the module raises or catches by
    name, and [OtherException cls] for an instance of any other class
    [cls] derived from [Exception].  [KeyError] stands for [KeyError] and
    its subclasses, which is what [except KeyError] catches.  What is
    raised outside [Exception] ([SystemExit], [KeyboardInterrupt],
    [GeneratorExit]) is not an [exn]: no handler of the module catches
    it, and a call in which plugin code raises it does not complete. *)
Inductive exn : Type :=
| KeyError (key : string)
| IndexError
| ProcessorsNotInitialized (args : string)
| OtherException (cls : string).

Definition is_KeyError (e : exn) : bool :=
  match e with
  | KeyError _ => true
  | _ => false
  end.

Inductive result (A : Type) : Type :=
| Ok (a : A)
| Raise (e : exn).

Arguments Ok {A} a.
Arguments Raise {A} e.

Definition result_bind {A B : Type} (k : A -> result B) (r : result A) : result B :=
  match r with
  | Ok a => k a
  | Raise e => Raise e
  end.

#[global] Instance result_ret : MRet result := @Ok.
#[global] Instance result_mbind : MBind result := @result_bind.

(** [d[key]] *)
Definition getitem (d : message) (key : string) : result value :=
  match d !! key with
  | Some v => Ok v
  | None => Raise (KeyError key)
  end.

(** ** The processor capability contract *)

(** What [fedmsg.meta] calls on a processor instance.  A processor is a
    strategy object: its methods are functions of the message (or the
    list of messages) and the configuration.  The text accessors return a
    string or [None], the set accessors a set of strings, the mapping
    accessors a mapping from strings to strings; [handle_msg] returns
    [None] or any other value.  [truth] is [bool(processor)], which
    [with_processor] consults. *)
Module Processor.

Record t : Type := Build {
  truth : bool;
  handle_msg : message -> config -> result value;
  title : message -> config -> result (option string);
  subtitle : message -> config -> result (option string);
  link : message -> config -> result (option string);
  icon : message -> config -> result (option string);
  secondary_icon : message -> config -> result (option string);
  usernames : message -> config -> result (gset string);
  packages : message -> config -> result (gset string);
  objects : message -> config -> result (gset string);
  emails : message -> config -> result (gmap string string);
  avatars : message -> config -> result (gmap string string);
  conglomerate : list message -> config -> result (list message)
}.

End Processor.

(** [value.method(...)] for a data value, which has no such method. *)
Definition no_method {A : Type} : result A :=
  Raise (OtherException "AttributeError").

(** A data value met where a processor is expected.  Its truth value is
    the value's own; it has none of a processor's methods, so calling one
    raises [AttributeError], except that a string has a [title] method of
    its own, which takes no argument and raises [TypeError]. *)
Definition value_object (v : value) : Processor.t :=
  {| Processor.truth := truthy v;
     Processor.handle_msg := fun _ _ => no_method;
     Processor.title := fun _ _ =>
       match v with
       | VStr _ => Raise (OtherException "TypeError")
       | _ => no_method
       end;
     Processor.subtitle := fun _ _ => no_method;
     Processor.link := fun _ _ => no_method;
     Processor.icon := fun _ _ => no_method;
     Processor.secondary_icon := fun _ _ => no_method;
     Processor.usernames := fun _ _ => no_method;
     Processor.packages := fun _ _ => no_method;
     Processor.objects := fun _ _ => no_method;
     Processor.emails := fun _ _ => no_method;
     Processor.avatars := fun _ _ => no_method;
     Processor.conglomerate := fun _ _ => no_method |}.

(** ** The registry *)

(** The global [processors] is either the [ProcessorsNotInitialized]
    instance it is bound to at import time, or the list built by
    [make_processors]. *)
Inductive registry : Type :=
| Uninitialized (args : string)
| ProcessorList (l : list Processor.t).

Definition processors_at_import : registry :=
  Uninitialized "You must first call fedmsg.meta.make_processors(**config)".

(** [iter(processors)]: [ProcessorsNotInitialized.__iter__] raises [self]. *)
Definition registry_iter (processors : registry) : result (list Processor.t) :=
  match processors with
  | Uninitialized args => Raise (ProcessorsNotInitialized args)
  | ProcessorList l => Ok l
  end.

(** [len(processors)]: [__len__ = __iter__]. *)
Definition registry_len (processors : registry) : result nat :=
  match processors with
  | Uninitialized args => Raise (ProcessorsNotInitialized args)
  | ProcessorList l => Ok (length l)
  end.

(** ** Dispatch *)

(** The body of the [for] loop of [msg2processor]: [Some processor] when
    the loop returns from inside, [None] when it runs to its [else]. *)
Fixpoint first_handler (l : list Processor.t) (msg : message) (cfg : config)
  : result (option Processor.t) :=
  match l with
  | [] => Ok None
  | processor :: rest =>
      r ← Processor.handle_msg processor msg cfg;
      if is_None r then first_handler rest msg cfg else Ok (Some processor)
  end.

(** [processors[-1]] *)
Definition last_entry (l : list Processor.t) : result Processor.t :=
  match last l with
  | Some processor => Ok processor
  | None => Raise IndexError
  end.

Definition msg2processor (processors : registry) (msg : message) (cfg : config)
  : result Processor.t :=
  l ← registry_iter processors;
  found ← first_handler l msg cfg;
  match found with
  | Some processor => Ok processor
  | None => last_entry l
  end.

(** ** The decorators *)

(** [legacy_condition(cls)(f)]: [cls] is the value [cls()] builds.  The
    wrapper takes [legacy] for itself and hands everything else, the
    [processor] keyword included, on to [f]. *)
Definition legacy_condition {A : Type} (cls : A)
    (f : registry -> message -> option Processor.t -> config -> result A)
    (processors : registry) (msg : message) (legacy : bool)
    (processor : option Processor.t) (cfg : config) : result A :=
  match f processors msg processor cfg with
  | Ok a => Ok a
  | Raise (KeyError key) => if legacy then Ok cls else Raise (KeyError key)
  | Raise e => Raise e
  end.

(** [with_processor()(f)]: [not processor] holds of [None] and of a
    processor whose truth value is false. *)
Definition with_processor {A : Type}
    (f : registry -> message -> Processor.t -> config -> result A)
    (processors : registry) (msg : message)
    (processor : option Processor.t) (cfg : config) : result A :=
  processor ←
    match processor with
    | Some p => if Processor.truth p then Ok p else msg2processor processors msg cfg
    | None => msg2processor processors msg cfg
    end;
  f processors msg processor cfg.

(** ** The per-field queries *)

(** [six.text_type()], [set()] and [dict()]. *)
Definition text_type : option string := Some "".
Definition set_ : gset string := ∅.
Definition dict_ : gmap string string := ∅.

Definition msg2title :=
  legacy_condition text_type (with_processor
    (fun _ msg processor cfg => Processor.title processor msg cfg)).

Definition msg2subtitle :=
  legacy_condition text_type (with_processor
    (fun _ msg processor cfg => Processor.subtitle processor msg cfg)).

Definition msg2link :=
  legacy_condition text_type (with_processor
    (fun _ msg processor cfg => Processor.link processor msg cfg)).

Definition msg2icon :=
  legacy_condition text_type (with_processor
    (fun _ msg processor cfg => Processor.icon processor msg cfg)).

Definition msg2secondary_icon :=
  legacy_condition text_type (with_processor
    (fun _ msg processor cfg => Processor.secondary_icon processor msg cfg)).

Definition msg2usernames :=
  legacy_condition set_ (with_processor
    (fun _ msg processor cfg => Processor.usernames processor msg cfg)).

Definition msg2packages :=
  legacy_condition set_ (with_processor
    (fun _ msg processor cfg => Processor.packages processor msg cfg)).

Definition msg2objects :=
  legacy_condition set_ (with_processor
    (fun _ msg processor cfg => Processor.objects processor msg cfg)).

Definition msg2emails :=
  legacy_condition dict_ (with_processor
    (fun _ msg processor cfg => Processor.emails processor msg cfg)).

Definition msg2avatars :=
  legacy_condition dict_ (with_processor
    (fun _ msg processor cfg => Processor.avatars processor msg cfg)).

(** How [str.format] renders a text field: a string as itself, [None] as
    its name. *)
Definition format_field (v : option string) : string :=
  match v with
  | Some s => s
  | None => "None"
  end.

(** [v or ''] *)
Definition or_empty (v : option string) : string :=
  match v with
  | Some s => if String.eqb s "" then "" else s
  | None => ""
  end.

(** [u"{title} -- {subtitle} {link}".format(...)] *)
Definition fmt (title subtitle : option string) (link : string) : string :=
  format_field title ++ " -- " ++ format_field subtitle ++ " " ++ link.

(** The body of [msg2repr]: the title is asked of [msg2title] without the
    [processor] and [legacy] keywords, subtitle and link of [processor]. *)
Definition msg2repr_body (processors : registry) (msg : message)
    (processor : Processor.t) (cfg : config) : result string :=
  title ← msg2title processors msg false None cfg;
  subtitle ← Processor.subtitle processor msg cfg;
  link ← Processor.link processor msg cfg;
  Ok (fmt title subtitle (or_empty link)).

Definition msg2repr :=
  legacy_condition ""%string (with_processor msg2repr_body).

(** ** Calling a query with a dict of keywords *)

(** [f(msg, **config)] for a decorated query [f] binds the key [legacy]
    of [config], if there is one, to the parameter of [legacy_condition]'s
    wrapper, the key [processor] to the parameter of [with_processor]'s,
    and hands the other keys on.  A key [msg] gives the parameter [msg] a
    second value, and the call itself raises [TypeError]. *)
Definition legacy_keyword (cfg : config) : bool :=
  match cfg !! "legacy" with
  | Some v => truthy v
  | None => false
  end.

Definition processor_keyword (cfg : config) : option Processor.t :=
  value_object <$> cfg !! "processor".

Definition other_keywords (cfg : config) : config :=
  delete "processor" (delete "legacy" cfg).

Definition keyword_call {A : Type}
    (f : registry -> message -> bool -> option Processor.t -> config -> result A)
    (processors : registry) (msg : message) (cfg : config) : result A :=
  if contains cfg "msg" then Raise (OtherException "TypeError")
  else f processors msg (legacy_keyword cfg) (processor_keyword cfg)
         (other_keywords cfg).

(** ** Conglomerate *)

(** How the result of a text query is stored in a conglomerate record. *)
Definition text_value (v : option string) : value :=
  match v with
  | Some s => VStr s
  | None => VNone
  end.

(** The first loop of [conglomerate]: every registered processor, in
    order, gets the list the previous one returned. *)
Fixpoint run_processors (l : list Processor.t) (messages : list message)
    (cfg : config) : result (list message) :=
  match l with
  | [] => Ok messages
  | processor :: rest =>
      messages ← Processor.conglomerate processor messages cfg;
      run_processors rest messages cfg
  end.

Section Conglomerate.

(** [arrow.get(timestamp).humanize()], as of the moment of the call. *)
Variable humanize : value -> result string.

(** The dict display assigned to [messages[i]], for the loop's [message]
    (here [msg]); its values are evaluated top to bottom.  Each query is
    called as [msg2subtitle(message, **config)], with the keywords
    [conglomerate] was given. *)
Definition fake_conglomerate (processors : registry) (msg : message)
    (cfg : config) : result message :=
  subtitle ← keyword_call msg2subtitle processors msg cfg;
  link ← keyword_call msg2link processors msg cfg;
  icon ← keyword_call msg2icon processors msg cfg;
  secondary_icon ← keyword_call msg2secondary_icon processors msg cfg;
  start_time ← getitem msg "timestamp";
  end_time ← getitem msg "timestamp";
  timestamp ← getitem msg "timestamp";
  human_time ← (t ← getitem msg "timestamp"; humanize t);
  usernames ← keyword_call msg2usernames processors msg cfg;
  packages ← keyword_call msg2packages processors msg cfg;
  msg_id ← getitem msg "msg_id";
  Ok (<["subtitle" := text_value subtitle]>
      (<["link" := text_value link]>
      (<["icon" := text_value icon]>
      (<["secondary_icon" := text_value secondary_icon]>
      (<["start_time" := start_time]>
      (<["end_time" := end_time]>
      (<["timestamp" := timestamp]>
      (<["human_time" := VStr human_time]>
      (<["usernames" := VSet usernames]>
      (<["packages" := VSet packages]>
      (<["msg_ids" := VList [msg_id]]> ∅))))))))))).

(** The second loop, [for i, message in enumerate(messages)], over the
    list it assigns into: [n] bounds the steps left, [i] is the
    iterator's position, and each step reads [messages[i]] as it is then. *)
Fixpoint fake_ungrouped (processors : registry) (cfg : config) (n i : nat)
    (messages : list message) : result (list message) :=
  match n with
  | 0 => Ok messages
  | S n' =>
      match messages !! i with
      | None => Ok messages
      | Some msg =>
          if contains msg "msg_ids"
          then fake_ungrouped processors cfg n' (S i) messages
          else
            fake ← fake_conglomerate processors msg cfg;
            fake_ungrouped processors cfg n' (S i) (<[i := fake]> messages)
      end
  end.

(** [conglomerate] returns the list its second loop assigned into, which
    is the list the last processor returned. *)
Definition conglomerate (processors : registry) (messages : list message)
    (cfg : config) : result (list message) :=
  l ← registry_iter processors;
  messages ← run_processors l messages cfg;
  fake_ungrouped processors cfg (length messages) 0 messages.

End Conglomerate.

(** ** Initialisation *)

(** What the module writes to its logger: [log.warn(text)] with a fixed
    text; the warning [Failed to load %r processor.] formatted with an
    entry point's name, kept here as the name that fills it, the
    rendering of [%r] being the interpreter's; and [log.exception(e)]. *)
Inductive log_record : Type :=
| Warn (text : string)
| WarnFailedToLoad (name : string)
| LogException (e : exn).

(** The module's mutable state: the global [processors] and the log. *)
Record state : Type := State {
  st_processors : registry;
  st_log : list log_record
}.

Definition state_at_import : state :=
  {| st_processors := processors_at_import; st_log := [] |}.

(** A processor class is called with the translation callable and the
    configuration and returns an instance or raises; an entry point has a
    name and loads such a class, or raises. *)
Definition processor_class : Type :=
  (string -> string) -> config -> result Processor.t.

Record entry_point : Type := EntryPoint {
  name : string;
  load : result processor_class
}.

Definition no_plugins_warning : log_record :=
  Warn "No fedmsg.meta plugins found.  fedmsg.meta.msg2* crippled".

Section MakeProcessors.

(** The translation callable [_] and the class
    [fedmsg.meta.default.DefaultProcessor], which is not among the
    sources: constructing it is taken to succeed. *)
Variable gettext : string -> string.
Variable DefaultProcessor : (string -> string) -> config -> Processor.t.

(** One round of the loop over the entry points: [try] to append the
    loaded and constructed processor, [except Exception] log and go on;
    every [exn] is an instance of [Exception]. *)
Definition load_entry_point (cfg : config)
    (acc : list Processor.t * list log_record) (processor : entry_point)
  : list Processor.t * list log_record :=
  match cls ← load processor; cls gettext cfg with
  | Ok p => (acc.1 ++ [p], acc.2)
  | Raise e =>
      (acc.1,
       acc.2 ++ [WarnFailedToLoad (name processor); LogException e])
  end.

(** [make_processors], called with the keywords [cfg], given what
    [pkg_resources.iter_entry_points('fedmsg.meta')] yields. *)
Definition make_processors (entry_points : list entry_point) (cfg : config)
    (st : state) : state :=
  let loaded := foldl (load_entry_point cfg) ([], st_log st) entry_points in
  let processors := loaded.1 ++ [DefaultProcessor gettext cfg] in
  let log :=
    if Nat.eqb (length processors) 3
    then loaded.2 ++ [no_plugins_warning]
    else loaded.2 in
  {| st_processors := ProcessorList processors; st_log := log |}.

End MakeProcessors.

(** ** Vocabulary of the statements *)

(** The ids a list element stands for: those listed under [msg_ids] when
    it is a conglomerate record, its own [msg_id] when it is a raw
    message. *)
Definition record_msg_ids (r : message) : list value :=
  match r !! "msg_ids" with
  | Some (VList ids) => ids
  | _ => []
  end.

Definition msg_ids_of (m : message) : list value :=
  if contains m "msg_ids" then record_msg_ids m
  else match m !! "msg_id" with
       | Some v => [v]
       | None => []
       end.

Definition coverage (messages : list message) : list value :=
  messages ≫= msg_ids_of.

(** A conglomerate step preserves coverage when the list it returns
    stands for the same ids, each as often as before. *)
Definition preserves_coverage (p : Processor.t) (cfg : config) : Prop :=
  forall messages messages',
    Processor.conglomerate p messages cfg = Ok messages' ->
    coverage messages' ≡ₚ coverage messages.

(** A conglomerate step that takes no element bearing [msg_ids] for a raw
    message leaves a list of such elements as it is. *)
Definition keeps_grouped (p : Processor.t) (cfg : config) : Prop :=
  forall messages,
    Forall (fun m => contains m "msg_ids" = true) messages ->
    Processor.conglomerate p messages cfg = Ok messages.

(** The [msg_id]s of the messages handed to [conglomerate]. *)
Definition input_ids (messages : list message) : list value :=
  omap (fun m => m !! "msg_id") messages.

(** What one round of the second loop of [conglomerate] makes of the
    element it reads. *)
Definition fake_if_ungrouped (humanize : value -> result string)
    (processors : registry) (cfg : config) (msg : message) : result message :=
  if contains msg "msg_ids" then Ok msg
  else fake_conglomerate humanize processors msg cfg.

(** No processor before the end of [l] has an opinion on [msg]. *)
Definition no_opinion (msg : message) (cfg : config) (p : Processor.t) : Prop :=
  Processor.handle_msg p msg cfg = Ok VNone.

(** The ten per-field queries, called on [msg] with no [processor]
    keyword, all raise [e]. *)
Definition fields_raise (processors : registry) (msg : message)
    (legacy : bool) (cfg : config) (e : exn) : Prop :=
  msg2title processors msg legacy None cfg = Raise e /\
  msg2subtitle processors msg legacy None cfg = Raise e /\
  msg2link processors msg legacy None cfg = Raise e /\
  msg2icon processors msg legacy None cfg = Raise e /\
  msg2secondary_icon processors msg legacy None cfg = Raise e /\
  msg2usernames processors msg legacy None cfg = Raise e /\
  msg2packages processors msg legacy None cfg = Raise e /\
  msg2objects processors msg legacy None cfg = Raise e /\
  msg2emails processors msg legacy None cfg = Raise e /\
  msg2avatars processors msg legacy None cfg = Raise e.

(** The same ten queries, in legacy mode, all return the empty value of
    their type. *)
Definition fields_empty (processors : registry) (msg : message)
    (cfg : config) : Prop :=
  msg2title processors msg true None cfg = Ok (Some "") /\
  msg2subtitle processors msg true None cfg = Ok (Some "") /\
  msg2link processors msg true None cfg = Ok (Some "") /\
  msg2icon processors msg true None cfg = Ok (Some "") /\
  msg2secondary_icon processors msg true None cfg = Ok (Some "") /\
  msg2usernames processors msg true None cfg = Ok ∅ /\
  msg2packages processors msg true None cfg = Ok ∅ /\
  msg2objects processors msg true None cfg = Ok ∅ /\
  msg2emails processors msg true None cfg = Ok ∅ /\
  msg2avatars processors msg true None cfg = Ok ∅.

(** The entry points that load and construct, in order. *)
Definition constructed (gettext : string -> string) (cfg : config)
    (entry_points : list entry_point) : list Processor.t :=
  omap (fun processor =>
          match cls ← load processor; cls gettext cfg with
          | Ok p => Some p
          | Raise _ => None
          end) entry_points.

(** What the entry points that fail to load or construct leave in the
    log, in order. *)
Definition failures (gettext : string -> string) (cfg : config)
    (entry_points : list entry_point) : list log_record :=
  entry_points ≫= (fun processor =>
    match cls ← load processor; cls gettext cfg with
    | Ok _ => []
    | Raise e =>
        [WarnFailedToLoad (name processor); LogException e]
    end).

(** ** Sample processors and messages *)

Module Examples.

(** Answers every probe with [claim] and every query from the message's
    [topic]; groups nothing. *)
Definition topical (claim : value) : Processor.t :=
  {| Processor.truth := true;
     Processor.handle_msg := fun _ _ => Ok claim;
     Processor.title := fun msg _ => t ← getitem msg "topic"; Ok (Some "event");
     Processor.subtitle := fun msg _ => t ← getitem msg "topic"; Ok (Some "something happened");
     Processor.link := fun msg _ => t ← getitem msg "topic"; Ok None;
     Processor.icon := fun msg _ => t ← getitem msg "topic"; Ok None;
     Processor.secondary_icon := fun msg _ => t ← getitem msg "topic"; Ok None;
     Processor.usernames := fun msg _ => t ← getitem msg "topic"; Ok {["ralph"]};
     Processor.packages := fun msg _ => t ← getitem msg "topic"; Ok ∅;
     Processor.objects := fun msg _ => t ← getitem msg "topic"; Ok ∅;
     Processor.emails := fun msg _ => t ← getitem msg "topic"; Ok ∅;
     Processor.avatars := fun msg _ => t ← getitem msg "topic"; Ok ∅;
     Processor.conglomerate := fun messages _ => Ok messages |}.

(** Every method raises [e]. *)
Definition broken (e : exn) : Processor.t :=
  {| Processor.truth := true;
     Processor.handle_msg := fun _ _ => Raise e;
     Processor.title := fun _ _ => Raise e;
     Processor.subtitle := fun _ _ => Raise e;
     Processor.link := fun _ _ => Raise e;
     Processor.icon := fun _ _ => Raise e;
     Processor.secondary_icon := fun _ _ => Raise e;
     Processor.usernames := fun _ _ => Raise e;
     Processor.packages := fun _ _ => Raise e;
     Processor.objects := fun _ _ => Raise e;
     Processor.emails := fun _ _ => Raise e;
     Processor.avatars := fun _ _ => Raise e;
     Processor.conglomerate := fun _ _ => Raise e |}.

(** Claims every message and then fails every query with [e]. *)
Definition claiming_then (e : exn) : Processor.t :=
  {| Processor.truth := true;
     Processor.handle_msg := fun _ _ => Ok (VBool true);
     Processor.title := fun _ _ => Raise e;
     Processor.subtitle := fun _ _ => Raise e;
     Processor.link := fun _ _ => Raise e;
     Processor.icon := fun _ _ => Raise e;
     Processor.secondary_icon := fun _ _ => Raise e;
     Processor.usernames := fun _ _ => Raise e;
     Processor.packages := fun _ _ => Raise e;
     Processor.objects := fun _ _ => Raise e;
     Processor.emails := fun _ _ => Raise e;
     Processor.avatars := fun _ _ => Raise e;
     Processor.conglomerate := fun messages _ => Ok messages |}.

Definition commit : message :=
  <["topic" := VStr "git.commit"]>
  (<["msg_id" := VStr "1"]> (<["timestamp" := VNum 100]> ∅)).

Definition vote : message :=
  <["topic" := VStr "tagger.vote"]>
  (<["msg_id" := VStr "2"]> (<["timestamp" := VNum 200]> ∅)).

(** A message with no [topic]. *)
Definition bare : message :=
  <["msg_id" := VStr "3"]> (<["timestamp" := VNum 300]> ∅).

Definition grouped : message :=
  <["msg_ids" := VList [VStr "4"; VStr "5"]]> (<["subtitle" := VStr "two builds"]> ∅).

Definition build : message :=
  <["topic" := VStr "buildsys.build"]>
  (<["msg_id" := VStr "6"]> (<["timestamp" := VNum 600]> ∅)).

Definition is_raw (m : message) : bool := negb (contains m "msg_ids").

(** Merges the first two messages of the list into one record when both
    are raw and bear a [msg_id]; returns the list as it is otherwise. *)
Definition pair_up (messages : list message) (cfg : config)
  : result (list message) :=
  match messages with
  | a :: b :: rest =>
      if is_raw a && is_raw b then
        match a !! "msg_id", b !! "msg_id" with
        | Some x, Some y =>
            Ok (<["msg_ids" := VList [x; y]]> (<["subtitle" := VStr "a pair"]> ∅)
                :: rest)
        | _, _ => Ok messages
        end
      else Ok messages
  | _ => Ok messages
  end.

(** Has no opinion on any message and groups with [pair_up]. *)
Definition pairing : Processor.t :=
  {| Processor.truth := true;
     Processor.handle_msg := fun _ _ => Ok VNone;
     Processor.title := fun _ _ => Ok None;
     Processor.subtitle := fun _ _ => Ok None;
     Processor.link := fun _ _ => Ok None;
     Processor.icon := fun _ _ => Ok None;
     Processor.secondary_icon := fun _ _ => Ok None;
     Processor.usernames := fun _ _ => Ok ∅;
     Processor.packages := fun _ _ => Ok ∅;
     Processor.objects := fun _ _ => Ok ∅;
     Processor.emails := fun _ _ => Ok ∅;
     Processor.avatars := fun _ _ => Ok ∅;
     Processor.conglomerate := pair_up |}.

Definition clock (t : value) : result string := Ok "just now".

(** Like [pairing], but an object whose truth value is false. *)
Definition falsy : Processor.t :=
  {| Processor.truth := false;
     Processor.handle_msg := fun _ _ => Ok VNone;
     Processor.title := fun _ _ => Ok None;
     Processor.subtitle := fun _ _ => Ok None;
     Processor.link := fun _ _ => Ok None;
     Processor.icon := fun _ _ => Ok None;
     Processor.secondary_icon := fun _ _ => Ok None;
     Processor.usernames := fun _ _ => Ok ∅;
     Processor.packages := fun _ _ => Ok ∅;
     Processor.objects := fun _ _ => Ok ∅;
     Processor.emails := fun _ _ => Ok ∅;
     Processor.avatars := fun _ _ => Ok ∅;
     Processor.conglomerate := fun messages _ => Ok messages |}.

(** A message with no [timestamp]. *)
Definition undated : message :=
  <["topic" := VStr "wiki.edit"]> (<["msg_id" := VStr "7"]> ∅).

(** An entry point whose module does not import. *)
Definition unloadable : entry_point :=
  {| name := "unloadable"; load := Raise (OtherException "ImportError") |}.

Definition plugin (cls : processor_class) : entry_point :=
  {| name := "plugin"; load := Ok cls |}.

End Examples.

(** * Properties *)

(** ** Results *)

Lemma bind_Ok {A B : Type} (a : A) (k : A -> result B) :
  (Ok a ≫= k) = k a.
Proof. reflexivity. Qed.

Lemma bind_Raise {A B : Type} (e : exn) (k : A -> result B) :
  (Raise e ≫= k) = Raise e.
Proof. reflexivity. Qed.

Lemma bind_Ok_inv {A B : Type} (r : result A) (k : A -> result B) (b : B) :
  (r ≫= k) = Ok b -> exists a, r = Ok a /\ k a = Ok b.
Proof. destruct r as [a|e]; [eauto | discriminate]. Qed.

Lemma getitem_Ok (d : message) (key : string) (v : value) :
  getitem d key = Ok v <-> d !! key = Some v.
Proof.
  unfold getitem. destruct (d !! key); split; intros H; congruence.
Qed.

Lemma contains_true (d : message) (key : string) :
  contains d key = true <-> is_Some (d !! key).
Proof. unfold contains. apply bool_decide_eq_true. Qed.

Lemma contains_false (d : message) (key : string) :
  contains d key = false <-> d !! key = None.
Proof.
  unfold contains. rewrite bool_decide_eq_false, eq_None_not_Some. tauto.
Qed.

(** ** Dispatch *)

Lemma first_handler_no_opinion (l : list Processor.t) (msg : message) (cfg : config) :
  Forall (no_opinion msg cfg) l -> first_handler l msg cfg = Ok None.
Proof.
  induction 1 as [|p l Hp _ IH]; simpl; [reflexivity|].
  rewrite Hp. simpl. exact IH.
Qed.

Lemma first_handler_claim (pre post : list Processor.t) (p : Processor.t)
    (msg : message) (cfg : config) (v : value) :
  Forall (no_opinion msg cfg) pre ->
  Processor.handle_msg p msg cfg = Ok v -> v <> VNone ->
  first_handler (pre ++ p :: post) msg cfg = Ok (Some p).
Proof.
  intros Hpre Hp Hv. induction Hpre as [|q pre Hq _ IH]; simpl.
  - rewrite Hp. simpl. destruct v; try reflexivity. congruence.
  - rewrite Hq. simpl. exact IH.
Qed.

Lemma first_handler_raise (pre post : list Processor.t) (p : Processor.t)
    (msg : message) (cfg : config) (e : exn) :
  Forall (no_opinion msg cfg) pre ->
  Processor.handle_msg p msg cfg = Raise e ->
  first_handler (pre ++ p :: post) msg cfg = Raise e.
Proof.
  intros Hpre Hp. induction Hpre as [|q pre Hq _ IH]; simpl.
  - rewrite Hp. reflexivity.
  - rewrite Hq. simpl. exact IH.
Qed.

(** A processor the loop returns is in the registry and answered the
    probe with something other than [None]. *)
Lemma first_handler_Some (l : list Processor.t) (msg : message) (cfg : config)
    (p : Processor.t) :
  first_handler l msg cfg = Ok (Some p) ->
  exists pre post v,
    l = pre ++ p :: post /\ Forall (no_opinion msg cfg) pre /\
    Processor.handle_msg p msg cfg = Ok v /\ v <> VNone.
Proof.
  induction l as [|q l IH]; simpl; [discriminate|].
  intros H. apply bind_Ok_inv in H as (v & Hq & H).
  destruct (is_None v) eqn:Hv.
  - destruct (IH H) as (pre & post & w & -> & Hpre & Hp & Hw).
    exists (q :: pre), post, w. repeat split; try assumption.
    constructor; [|assumption]. destruct v; try discriminate. exact Hq.
  - injection H as <-. exists [], l, v. repeat split; try assumption.
    + constructor.
    + intros ->. discriminate.
Qed.

Lemma msg2processor_raise (pre post : list Processor.t) (p : Processor.t)
    (msg : message) (cfg : config) (e : exn) :
  Forall (no_opinion msg cfg) pre ->
  Processor.handle_msg p msg cfg = Raise e ->
  msg2processor (ProcessorList (pre ++ p :: post)) msg cfg = Raise e.
Proof.
  intros Hpre Hp. unfold msg2processor. simpl.
  rewrite (first_handler_raise _ _ _ _ _ _ Hpre Hp). reflexivity.
Qed.

(** With nothing registered the [else] branch indexes an empty list. *)
Lemma msg2processor_empty (msg : message) (cfg : config) :
  msg2processor (ProcessorList []) msg cfg = Raise IndexError.
Proof. reflexivity. Qed.

(** C2: on a registry that is a non-empty list, [msg2processor] returns
    the first processor, in registration order, whose [handle_msg] result
    is not [None], whatever its truth value; when every result is [None]
    it returns the last entry of the registry. *)
Theorem msg2processor_first_claim (l : list Processor.t) (msg : message) (cfg : config) :
  l <> [] ->
  (forall pre p post v,
      l = pre ++ p :: post ->
      Forall (no_opinion msg cfg) pre ->
      Processor.handle_msg p msg cfg = Ok v -> v <> VNone ->
      msg2processor (ProcessorList l) msg cfg = Ok p) /\
  (Forall (no_opinion msg cfg) l ->
   exists p, last l = Some p /\ msg2processor (ProcessorList l) msg cfg = Ok p).
Proof.
  intros Hne. split.
  - intros pre p post v -> Hpre Hp Hv. unfold msg2processor. simpl.
    rewrite (first_handler_claim _ _ _ _ _ _ Hpre Hp Hv). reflexivity.
  - intros Hall. unfold msg2processor. simpl.
    rewrite (first_handler_no_opinion _ _ _ Hall). simpl.
    unfold last_entry. destruct (last l) as [p|] eqn:Hlast.
    + exists p. split; reflexivity.
    + apply last_None in Hlast. contradiction.
Qed.

(** The registry [quiet; falsy; topical]: [falsy] claims with the empty
    string, which is not [None], and is returned; a registry of quiet
    processors falls through to its last entry. *)
Lemma msg2processor_first_claim_witness :
  msg2processor
    (ProcessorList [Examples.topical VNone; Examples.topical (VStr "");
                    Examples.topical (VBool true)])
    Examples.commit ∅ = Ok (Examples.topical (VStr "")) /\
  exists p,
    last [Examples.topical VNone; Examples.topical VNone] = Some p /\
    msg2processor (ProcessorList [Examples.topical VNone; Examples.topical VNone])
      Examples.commit ∅ = Ok p.
Proof.
  split.
  - apply (proj1 (msg2processor_first_claim
                    [Examples.topical VNone; Examples.topical (VStr "");
                     Examples.topical (VBool true)]
                    Examples.commit ∅ ltac:(discriminate))
             [Examples.topical VNone] (Examples.topical (VStr ""))
             [Examples.topical (VBool true)] (VStr "")).
    + reflexivity.
    + repeat constructor.
    + reflexivity.
    + discriminate.
  - apply (proj2 (msg2processor_first_claim
                    [Examples.topical VNone; Examples.topical VNone]
                    Examples.commit ∅ ltac:(discriminate))).
    repeat constructor.
Defined.

(** ** The decorators *)

Section Decorators.

Context {A : Type} (cls : A).

(** Without the [legacy] keyword the wrapper is transparent. *)
Lemma legacy_condition_off
    (f : registry -> message -> option Processor.t -> config -> result A)
    (processors : registry) (msg : message) (processor : option Processor.t)
    (cfg : config) :
  legacy_condition cls f processors msg false processor cfg
  = f processors msg processor cfg.
Proof.
  unfold legacy_condition.
  destruct (f processors msg processor cfg) as [a|[]]; reflexivity.
Qed.

(** With it, [KeyError] and only [KeyError] becomes [cls()]. *)
Lemma legacy_condition_on
    (f : registry -> message -> option Processor.t -> config -> result A)
    (processors : registry) (msg : message) (processor : option Processor.t)
    (cfg : config) :
  legacy_condition cls f processors msg true processor cfg
  = match f processors msg processor cfg with
    | Ok a => Ok a
    | Raise e => if is_KeyError e then Ok cls else Raise e
    end.
Proof.
  unfold legacy_condition.
  destruct (f processors msg processor cfg) as [a|[]]; reflexivity.
Qed.

Variable f : registry -> message -> Processor.t -> config -> result A.

(** A decorated query called without the [processor] keyword, when
    dispatch raises. *)
Lemma query_dispatch_raise (processors : registry) (msg : message)
    (legacy : bool) (cfg : config) (e : exn) :
  msg2processor processors msg cfg = Raise e ->
  legacy_condition cls (with_processor f) processors msg legacy None cfg
  = if legacy && is_KeyError e then Ok cls else Raise e.
Proof.
  intros H. unfold legacy_condition, with_processor. rewrite H. simpl.
  destruct e, legacy; reflexivity.
Qed.

(** The same call, when dispatch resolves to [p]. *)
Lemma query_resolved (processors : registry) (msg : message)
    (legacy : bool) (cfg : config) (p : Processor.t) :
  msg2processor processors msg cfg = Ok p ->
  legacy_condition cls (with_processor f) processors msg legacy None cfg
  = match f processors msg p cfg with
    | Ok a => Ok a
    | Raise e => if legacy && is_KeyError e then Ok cls else Raise e
    end.
Proof.
  intros H. unfold legacy_condition, with_processor. rewrite H. simpl.
  destruct (f processors msg p cfg) as [a|[]], legacy; reflexivity.
Qed.

(** A processor passed by keyword is used as it is when it is true, and
    the registry is not consulted. *)
Lemma query_given_processor (processors : registry) (msg : message)
    (legacy : bool) (cfg : config) (p : Processor.t) :
  Processor.truth p = true ->
  legacy_condition cls (with_processor f) processors msg legacy (Some p) cfg
  = match f processors msg p cfg with
    | Ok a => Ok a
    | Raise e => if legacy && is_KeyError e then Ok cls else Raise e
    end.
Proof.
  intros H. unfold legacy_condition, with_processor. rewrite H. simpl.
  destruct (f processors msg p cfg) as [a|[]], legacy; reflexivity.
Qed.

End Decorators.

(** Unfolds the ten per-field queries and [msg2repr] down to the two
    decorators. *)
Ltac unfold_queries :=
  unfold fields_raise, fields_empty,
    msg2title, msg2subtitle, msg2link, msg2icon, msg2secondary_icon,
    msg2usernames, msg2packages, msg2objects, msg2emails, msg2avatars,
    msg2repr, text_type, set_, dict_.

(** Settles a decorated query from what dispatch does ([Hd]) and what the
    accessor does (a hypothesis of the context). *)
Ltac settle_query Hd :=
  first
    [ rewrite (query_resolved _ _ _ _ _ _ _ Hd)
    | rewrite (query_dispatch_raise _ _ _ _ _ _ _ Hd) ];
  repeat match goal with
         | H : _ = Raise _ |- _ => rewrite H
         | H : _ = Ok _ |- _ => rewrite H
         end;
  simpl;
  repeat match goal with
         | H : is_KeyError _ = _ |- _ => rewrite H
         end;
  try reflexivity.

Lemma msg2title_resolved (processors : registry) (msg : message) (cfg : config)
    (p : Processor.t) :
  msg2processor processors msg cfg = Ok p ->
  msg2title processors msg false None cfg = Processor.title p msg cfg.
Proof.
  intros Hd. unfold_queries. rewrite (query_resolved _ _ _ _ _ _ _ Hd).
  destruct (Processor.title p msg cfg); reflexivity.
Qed.

Lemma or_empty_spec (v : option string) :
  or_empty v = match v with Some s => s | None => "" end.
Proof.
  destruct v as [s|]; [|reflexivity]. simpl.
  destruct (String.eqb_spec s ""); congruence.
Qed.

(** The body of [msg2repr] for a processor [q] passed by keyword or found
    by dispatch: the title is the dispatched processor's. *)
Lemma msg2repr_body_resolved (processors : registry) (msg : message)
    (cfg : config) (p q : Processor.t) :
  msg2processor processors msg cfg = Ok p ->
  msg2repr_body processors msg q cfg
  = (title ← Processor.title p msg cfg;
     subtitle ← Processor.subtitle q msg cfg;
     link ← Processor.link q msg cfg;
     Ok (fmt title subtitle (or_empty link))).
Proof.
  intros Hd. unfold msg2repr_body. rewrite (msg2title_resolved _ _ _ _ Hd).
  reflexivity.
Qed.

(** ** The per-field queries *)

(** Settles [msg2repr] called without the [processor] keyword. *)
Ltac settle_repr Hd :=
  unfold msg2repr;
  rewrite (query_resolved _ _ _ _ _ _ _ Hd),
          (msg2repr_body_resolved _ _ _ _ _ Hd);
  repeat match goal with
         | H : _ = Raise _ |- _ => rewrite H
         | H : _ = Ok _ |- _ => rewrite H
         end;
  simpl;
  repeat match goal with
         | H : is_KeyError _ = _ |- _ => rewrite H
         end;
  try reflexivity.

(** C3: when the accessor of the processor that dispatch resolves to
    raises [KeyError], each per-field query raises that same [KeyError]
    without [legacy], and with [legacy=True] returns the empty value of
    its type: the empty string for the text fields, the empty set for the
    set fields, the empty mapping for the mapping fields.  [msg2repr]
    does so for each of the three accessors it evaluates, in the order it
    evaluates them. *)
Theorem legacy_fallback_contract (processors : registry) (msg : message)
    (cfg : config) (p : Processor.t) (key : string) :
  msg2processor processors msg cfg = Ok p ->
  (Processor.title p msg cfg = Raise (KeyError key) ->
   msg2title processors msg false None cfg = Raise (KeyError key) /\
   msg2title processors msg true None cfg = Ok (Some "")) /\
  (Processor.subtitle p msg cfg = Raise (KeyError key) ->
   msg2subtitle processors msg false None cfg = Raise (KeyError key) /\
   msg2subtitle processors msg true None cfg = Ok (Some "")) /\
  (Processor.link p msg cfg = Raise (KeyError key) ->
   msg2link processors msg false None cfg = Raise (KeyError key) /\
   msg2link processors msg true None cfg = Ok (Some "")) /\
  (Processor.icon p msg cfg = Raise (KeyError key) ->
   msg2icon processors msg false None cfg = Raise (KeyError key) /\
   msg2icon processors msg true None cfg = Ok (Some "")) /\
  (Processor.secondary_icon p msg cfg = Raise (KeyError key) ->
   msg2secondary_icon processors msg false None cfg = Raise (KeyError key) /\
   msg2secondary_icon processors msg true None cfg = Ok (Some "")) /\
  (Processor.usernames p msg cfg = Raise (KeyError key) ->
   msg2usernames processors msg false None cfg = Raise (KeyError key) /\
   msg2usernames processors msg true None cfg = Ok ∅) /\
  (Processor.packages p msg cfg = Raise (KeyError key) ->
   msg2packages processors msg false None cfg = Raise (KeyError key) /\
   msg2packages processors msg true None cfg = Ok ∅) /\
  (Processor.objects p msg cfg = Raise (KeyError key) ->
   msg2objects processors msg false None cfg = Raise (KeyError key) /\
   msg2objects processors msg true None cfg = Ok ∅) /\
  (Processor.emails p msg cfg = Raise (KeyError key) ->
   msg2emails processors msg false None cfg = Raise (KeyError key) /\
   msg2emails processors msg true None cfg = Ok ∅) /\
  (Processor.avatars p msg cfg = Raise (KeyError key) ->
   msg2avatars processors msg false None cfg = Raise (KeyError key) /\
   msg2avatars processors msg true None cfg = Ok ∅) /\
  (Processor.title p msg cfg = Raise (KeyError key) ->
   msg2repr processors msg false None cfg = Raise (KeyError key) /\
   msg2repr processors msg true None cfg = Ok "") /\
  (forall title,
      Processor.title p msg cfg = Ok title ->
      Processor.subtitle p msg cfg = Raise (KeyError key) ->
      msg2repr processors msg false None cfg = Raise (KeyError key) /\
      msg2repr processors msg true None cfg = Ok "") /\
  (forall title subtitle,
      Processor.title p msg cfg = Ok title ->
      Processor.subtitle p msg cfg = Ok subtitle ->
      Processor.link p msg cfg = Raise (KeyError key) ->
      msg2repr processors msg false None cfg = Raise (KeyError key) /\
      msg2repr processors msg true None cfg = Ok "").
Proof.
  intros Hd.
  repeat match goal with |- _ /\ _ => split end; intros;
    first [ split; settle_repr Hd | split; unfold_queries; settle_query Hd ].
Qed.

(** The message [bare] has no [topic], which every accessor of the
    processor it resolves to asks for. *)
Lemma legacy_fallback_contract_witness :
  (msg2title (ProcessorList [Examples.topical (VBool true)]) Examples.bare false None ∅
     = Raise (KeyError "topic") /\
   msg2title (ProcessorList [Examples.topical (VBool true)]) Examples.bare true None ∅
     = Ok (Some "")) /\
  (msg2usernames (ProcessorList [Examples.topical (VBool true)]) Examples.bare false None ∅
     = Raise (KeyError "topic") /\
   msg2usernames (ProcessorList [Examples.topical (VBool true)]) Examples.bare true None ∅
     = Ok ∅) /\
  (msg2emails (ProcessorList [Examples.topical (VBool true)]) Examples.bare false None ∅
     = Raise (KeyError "topic") /\
   msg2emails (ProcessorList [Examples.topical (VBool true)]) Examples.bare true None ∅
     = Ok ∅) /\
  (msg2repr (ProcessorList [Examples.topical (VBool true)]) Examples.bare false None ∅
     = Raise (KeyError "topic") /\
   msg2repr (ProcessorList [Examples.topical (VBool true)]) Examples.bare true None ∅
     = Ok "").
Proof.
  pose proof (legacy_fallback_contract
                (ProcessorList [Examples.topical (VBool true)]) Examples.bare ∅
                (Examples.topical (VBool true)) "topic" eq_refl)
    as (Ht & _ & _ & _ & _ & Hu & _ & _ & He & _ & Hr & _).
  repeat split;
    first [ apply Ht | apply Hu | apply He | apply Hr ]; reflexivity.
Defined.

(** C9: when the processor that dispatch resolves to produces title,
    subtitle and link without error, [msg2repr] returns the template
    [{title} -- {subtitle} {link}] filled with that processor's title and
    subtitle and with its link, or with the empty string when the link is
    [None]. *)
Theorem msg2repr_template (processors : registry) (msg : message)
    (legacy : bool) (cfg : config) (p : Processor.t)
    (title subtitle link : option string) :
  msg2processor processors msg cfg = Ok p ->
  Processor.title p msg cfg = Ok title ->
  Processor.subtitle p msg cfg = Ok subtitle ->
  Processor.link p msg cfg = Ok link ->
  msg2repr processors msg legacy None cfg
  = Ok (format_field title ++ " -- " ++ format_field subtitle ++ " "
        ++ match link with Some s => s | None => "" end)%string.
Proof.
  intros Hd Ht Hs Hl. settle_repr Hd.
  unfold fmt. rewrite or_empty_spec. reflexivity.
Qed.

Lemma msg2repr_template_witness :
  msg2repr
    (ProcessorList [Examples.topical VNone; Examples.topical (VBool true)])
    Examples.commit false None ∅
  = Ok "event -- something happened ".
Proof.
  apply (msg2repr_template
           (ProcessorList [Examples.topical VNone; Examples.topical (VBool true)])
           Examples.commit false ∅ (Examples.topical (VBool true))
           (Some "event") (Some "something happened") None);
    reflexivity.
Defined.

(** X11: with a processor [q] passed by keyword, subtitle and link are [q]'s
    while the title is still the dispatched processor's. *)
Lemma msg2repr_given_processor (processors : registry) (msg : message)
    (legacy : bool) (cfg : config) (p q : Processor.t)
    (title subtitle link : option string) :
  Processor.truth q = true ->
  msg2processor processors msg cfg = Ok p ->
  Processor.title p msg cfg = Ok title ->
  Processor.subtitle q msg cfg = Ok subtitle ->
  Processor.link q msg cfg = Ok link ->
  msg2repr processors msg legacy (Some q) cfg
  = Ok (fmt title subtitle (match link with Some s => s | None => "" end)).
Proof.
  intros Hq Hd Ht Hs Hl. unfold msg2repr.
  rewrite (query_given_processor _ _ _ _ _ _ _ Hq),
          (msg2repr_body_resolved _ _ _ _ _ Hd), Ht, Hs, Hl.
  simpl. rewrite or_empty_spec. reflexivity.
Qed.

(** ** What the legacy wrapper lets through *)

(** C10: in legacy mode a query turns [KeyError] and nothing else into
    the empty value.  An exception that is not a [KeyError], raised by
    the accessor of the resolved processor or by a [handle_msg] that
    dispatch reaches, comes out unchanged; a [KeyError] raised by such a
    [handle_msg] is turned into the empty value like one raised by the
    accessor, because the legacy wrapper is the outer one. *)
Theorem legacy_intercepts_only_KeyError (processors : registry) (msg : message)
    (cfg : config) :
  (forall p e,
      msg2processor processors msg cfg = Ok p ->
      is_KeyError e = false ->
      (Processor.title p msg cfg = Raise e ->
       msg2title processors msg true None cfg = Raise e /\
       msg2repr processors msg true None cfg = Raise e) /\
      (Processor.subtitle p msg cfg = Raise e ->
       msg2subtitle processors msg true None cfg = Raise e) /\
      (Processor.link p msg cfg = Raise e ->
       msg2link processors msg true None cfg = Raise e) /\
      (Processor.icon p msg cfg = Raise e ->
       msg2icon processors msg true None cfg = Raise e) /\
      (Processor.secondary_icon p msg cfg = Raise e ->
       msg2secondary_icon processors msg true None cfg = Raise e) /\
      (Processor.usernames p msg cfg = Raise e ->
       msg2usernames processors msg true None cfg = Raise e) /\
      (Processor.packages p msg cfg = Raise e ->
       msg2packages processors msg true None cfg = Raise e) /\
      (Processor.objects p msg cfg = Raise e ->
       msg2objects processors msg true None cfg = Raise e) /\
      (Processor.emails p msg cfg = Raise e ->
       msg2emails processors msg true None cfg = Raise e) /\
      (Processor.avatars p msg cfg = Raise e ->
       msg2avatars processors msg true None cfg = Raise e) /\
      (forall title,
          Processor.title p msg cfg = Ok title ->
          Processor.subtitle p msg cfg = Raise e ->
          msg2repr processors msg true None cfg = Raise e) /\
      (forall title subtitle,
          Processor.title p msg cfg = Ok title ->
          Processor.subtitle p msg cfg = Ok subtitle ->
          Processor.link p msg cfg = Raise e ->
          msg2repr processors msg true None cfg = Raise e)) /\
  (forall pre p post e,
      processors = ProcessorList (pre ++ p :: post) ->
      Forall (no_opinion msg cfg) pre ->
      Processor.handle_msg p msg cfg = Raise e ->
      (is_KeyError e = false ->
       fields_raise processors msg true cfg e /\
       msg2repr processors msg true None cfg = Raise e) /\
      (is_KeyError e = true ->
       fields_empty processors msg cfg /\
       msg2repr processors msg true None cfg = Ok "")).
Proof.
  split.
  - intros p e Hd He.
    repeat first [ match goal with |- _ /\ _ => split end | intro ];
      first [ settle_repr Hd | unfold_queries; settle_query Hd ].
  - intros pre p post e -> Hpre Hp.
    pose proof (msg2processor_raise pre post p msg cfg e Hpre Hp) as Hd.
    split; intros He; unfold_queries;
      repeat match goal with |- _ /\ _ => split end; settle_query Hd.
Qed.

(** A processor that claims and then fails with something other than a
    [KeyError]; a probe that fails likewise; a probe that fails with a
    [KeyError]. *)
Lemma legacy_intercepts_only_KeyError_witness :
  msg2title (ProcessorList [Examples.claiming_then (OtherException "ValueError")])
    Examples.commit true None ∅ = Raise (OtherException "ValueError") /\
  msg2packages
    (ProcessorList [Examples.topical VNone; Examples.broken IndexError;
                    Examples.topical (VBool true)])
    Examples.commit true None ∅ = Raise IndexError /\
  msg2avatars
    (ProcessorList [Examples.broken (KeyError "msg"); Examples.topical (VBool true)])
    Examples.commit true None ∅ = Ok ∅.
Proof.
  split; [|split].
  - apply (proj1 (legacy_intercepts_only_KeyError
                    (ProcessorList [Examples.claiming_then (OtherException "ValueError")])
                    Examples.commit ∅)
             (Examples.claiming_then (OtherException "ValueError"))
             (OtherException "ValueError") eq_refl eq_refl);
      reflexivity.
  - apply (proj2 (legacy_intercepts_only_KeyError
                    (ProcessorList [Examples.topical VNone; Examples.broken IndexError;
                                    Examples.topical (VBool true)])
                    Examples.commit ∅)
             [Examples.topical VNone] (Examples.broken IndexError)
             [Examples.topical (VBool true)] IndexError eq_refl);
      [repeat constructor | reflexivity | reflexivity].
  - apply (proj2 (legacy_intercepts_only_KeyError
                    (ProcessorList [Examples.broken (KeyError "msg");
                                    Examples.topical (VBool true)])
                    Examples.commit ∅)
             [] (Examples.broken (KeyError "msg"))
             [Examples.topical (VBool true)] (KeyError "msg") eq_refl);
      [constructor | reflexivity | reflexivity].
Defined.

(** ** The registry before initialisation *)

Lemma msg2processor_uninitialized (args : string) (msg : message) (cfg : config) :
  msg2processor (Uninitialized args) msg cfg = Raise (ProcessorsNotInitialized args).
Proof. reflexivity. Qed.

(** [msg2repr] asks [msg2title] for the title without handing its
    processor on, so it reaches the registry whatever it is called with. *)
Lemma msg2repr_uninitialized (args : string) (msg : message) (legacy : bool)
    (processor : option Processor.t) (cfg : config) :
  msg2repr (Uninitialized args) msg legacy processor cfg
  = Raise (ProcessorsNotInitialized args).
Proof.
  unfold msg2repr, legacy_condition, with_processor.
  destruct processor as [q|]; [destruct (Processor.truth q)|];
    destruct legacy; reflexivity.
Qed.

(** C5, as the code has it: the registry as it is before
    [make_processors] raises [ProcessorsNotInitialized], with the message
    that says to call [make_processors] first, when iterated or measured;
    [msg2processor], [conglomerate], [msg2repr] (whatever it is called
    with) and each per-field query called without the [processor] keyword
    then raise that error, in legacy mode too. *)
Theorem uninitialized_registry_raises (humanize : value -> result string)
    (msg : message) (messages : list message) (legacy : bool)
    (processor : option Processor.t) (cfg : config) :
  st_processors state_at_import
  = Uninitialized "You must first call fedmsg.meta.make_processors(**config)" /\
  forall args,
    registry_iter (Uninitialized args) = Raise (ProcessorsNotInitialized args) /\
    registry_len (Uninitialized args) = Raise (ProcessorsNotInitialized args) /\
    msg2processor (Uninitialized args) msg cfg
    = Raise (ProcessorsNotInitialized args) /\
    conglomerate humanize (Uninitialized args) messages cfg
    = Raise (ProcessorsNotInitialized args) /\
    msg2repr (Uninitialized args) msg legacy processor cfg
    = Raise (ProcessorsNotInitialized args) /\
    fields_raise (Uninitialized args) msg legacy cfg (ProcessorsNotInitialized args).
Proof.
  split; [reflexivity|]. intros args.
  repeat match goal with |- _ /\ _ => split end; try reflexivity.
  - apply msg2repr_uninitialized.
  - unfold_queries.
    repeat match goal with |- _ /\ _ => split end;
      rewrite (query_dispatch_raise _ _ _ _ _ _ _
                 (msg2processor_uninitialized args msg cfg));
      simpl; rewrite andb_false_r; reflexivity.
Qed.

(** C5, where it fails as stated: a per-field query that is handed a
    processor by keyword does not consult the registry, so it returns
    although [make_processors] has not been called. *)
Lemma uninitialized_query_given_processor :
  msg2title processors_at_import Examples.commit false
    (Some (Examples.topical (VBool true))) ∅
  = Ok (Some "event").
Proof. reflexivity. Qed.

(** ** Initialisation *)

Section MakeProcessorsFacts.

Variable gettext : string -> string.
Variable DefaultProcessor : (string -> string) -> config -> Processor.t.

Lemma load_entry_points_spec (cfg : config) (entry_points : list entry_point)
    (acc : list Processor.t * list log_record) :
  foldl (load_entry_point gettext cfg) acc entry_points
  = (acc.1 ++ constructed gettext cfg entry_points,
     acc.2 ++ failures gettext cfg entry_points).
Proof.
  revert acc. induction entry_points as [|processor rest IH]; intros [ps lg].
  - simpl. rewrite !app_nil_r. reflexivity.
  - simpl. rewrite IH. unfold load_entry_point, constructed, failures. simpl.
    destruct (load processor) as [cls|e]; simpl;
      [destruct (cls gettext cfg) as [p|e]|]; simpl;
      rewrite <- app_assoc; reflexivity.
Qed.

(** The registry and the log that [make_processors] leaves. *)
Lemma make_processors_spec (entry_points : list entry_point) (cfg : config)
    (st : state) :
  make_processors gettext DefaultProcessor entry_points cfg st
  = {| st_processors :=
         ProcessorList (constructed gettext cfg entry_points
                        ++ [DefaultProcessor gettext cfg]);
       st_log :=
         st_log st ++ failures gettext cfg entry_points
         ++ (if Nat.eqb (length (constructed gettext cfg entry_points)) 2
             then [no_plugins_warning] else []) |}.
Proof.
  unfold make_processors. rewrite load_entry_points_spec. simpl.
  rewrite length_app. simpl.
  replace (length (constructed gettext cfg entry_points) + 1)
    with (S (length (constructed gettext cfg entry_points))) by lia.
  simpl.
  destruct (Nat.eqb (length (constructed gettext cfg entry_points)) 2).
  - rewrite app_assoc. reflexivity.
  - rewrite !app_nil_r. reflexivity.
Qed.

(** C4: whatever the entry points and whichever of them fail to load or
    to construct, [make_processors] leaves a registry that is the
    processors that did construct, in order, followed by the
    [DefaultProcessor] instance, which is therefore its last entry. *)
Theorem make_processors_default_last (entry_points : list entry_point)
    (cfg : config) (st : state) :
  exists l,
    st_processors (make_processors gettext DefaultProcessor entry_points cfg st)
    = ProcessorList l /\
    l = constructed gettext cfg entry_points ++ [DefaultProcessor gettext cfg] /\
    last l = Some (DefaultProcessor gettext cfg).
Proof.
  eexists. rewrite make_processors_spec. simpl.
  split; [reflexivity|]. split; [reflexivity|]. apply last_snoc.
Qed.

(** The records of failed loads are not the warning about missing
    plugins. *)
Lemma failures_not_warning (cfg : config) (entry_points : list entry_point) :
  no_plugins_warning ∉ failures gettext cfg entry_points.
Proof.
  unfold failures. intros H. apply list_elem_of_bind in H as (ep & H & _).
  destruct (load ep) as [cls|e]; simpl in H;
    [destruct (cls gettext cfg) as [p|e]; simpl in H|]; [inversion H| |].
  all: unfold no_plugins_warning in H.
  all: apply elem_of_cons in H as [H|H]; [discriminate|].
  all: apply elem_of_cons in H as [H|H]; [discriminate|inversion H].
Qed.


(** X6: [make_processors] logs the warning about missing plugins exactly
    when two entry points constructed, the count the two processors that
    ship with fedmsg give when they are alone. *)
Lemma make_processors_warns_iff (entry_points : list entry_point)
    (cfg : config) :
  no_plugins_warning
    ∈ st_log (make_processors gettext DefaultProcessor entry_points cfg state_at_import)
  <-> length (constructed gettext cfg entry_points) = 2.
Proof.
  rewrite make_processors_spec. simpl.
  destruct (Nat.eqb_spec (length (constructed gettext cfg entry_points)) 2) as [E|E].
  - split; [intros _; exact E|intros _].
    apply elem_of_app. right. apply list_elem_of_singleton. reflexivity.
  - split; [|intros; contradiction].
    rewrite app_nil_r. intros H. destruct (failures_not_warning _ _ H).
Qed.

(** [make_processors] is a total function of its inputs: it returns for
    every list of entry points. *)
Lemma make_processors_returns (entry_points : list entry_point) (cfg : config)
    (st : state) :
  exists l log,
    make_processors gettext DefaultProcessor entry_points cfg st
    = {| st_processors := ProcessorList l; st_log := log |}.
Proof. rewrite make_processors_spec. eauto. Qed.

(** C6, at the input where it fails: with no entry point at all no plugin
    has loaded and the registry holds the default processor alone, yet
    nothing is logged. *)
Theorem make_processors_no_entry_points (cfg : config) :
  make_processors gettext DefaultProcessor [] cfg state_at_import
  = {| st_processors := ProcessorList [DefaultProcessor gettext cfg];
       st_log := [] |}.
Proof. reflexivity. Qed.

End MakeProcessorsFacts.

(** With two plugins loaded and nothing else the count is three as well,
    and the warning is logged although plugins were found. *)
Lemma make_processors_two_plugins (gettext : string -> string)
    (DefaultProcessor : (string -> string) -> config -> Processor.t) :
  st_log (make_processors gettext DefaultProcessor
            [Examples.plugin (fun _ _ => Ok (Examples.topical (VBool true)));
             Examples.plugin (fun _ _ => Ok Examples.pairing)]
            ∅ state_at_import)
  = [no_plugins_warning].
Proof. reflexivity. Qed.

(** ** Conglomerate *)

Lemma mapM_Ok_Forall2 {A B : Type} (f : A -> result B) (l : list A) (k : list B) :
  mapM f l = Ok k <-> Forall2 (fun x y => f x = Ok y) l k.
Proof.
  revert k. induction l as [|x l IH]; intros k; simpl.
  - split.
    + intros [= <-]. constructor.
    + intros H. inversion H. reflexivity.
  - split.
    + intros H. apply bind_Ok_inv in H as (y & Hy & H).
      apply bind_Ok_inv in H as (k' & Hk' & [= <-]).
      constructor; [assumption | apply IH; assumption].
    + intros H. inversion H as [|? y ? k' Hy Hk']; subst.
      rewrite Hy. simpl. apply IH in Hk'. rewrite Hk'. reflexivity.
Qed.

Lemma mapM_cons {A B : Type} (f : A -> result B) (x : A) (l : list A) :
  mapM f (x :: l) = (y ← f x; k ← mapM f l; Ok (y :: k)).
Proof. reflexivity. Qed.

Section ConglomerateFacts.

Variable humanize : value -> result string.

Lemma fake_if_ungrouped_grouped (processors : registry) (cfg : config)
    (msg : message) :
  contains msg "msg_ids" = true ->
  fake_if_ungrouped humanize processors cfg msg = Ok msg.
Proof. intros H. unfold fake_if_ungrouped. rewrite H. reflexivity. Qed.

Lemma fake_if_ungrouped_raw (processors : registry) (cfg : config)
    (msg : message) :
  contains msg "msg_ids" = false ->
  fake_if_ungrouped humanize processors cfg msg
  = fake_conglomerate humanize processors msg cfg.
Proof. intros H. unfold fake_if_ungrouped. rewrite H. reflexivity. Qed.

(** The loop over the list it assigns into computes what a map over the
    list computes: round [i] reads an element no earlier round wrote. *)
Lemma fake_ungrouped_mapM (processors : registry) (cfg : config)
    (todo done : list message) (n : nat) :
  length todo <= n ->
  fake_ungrouped humanize processors cfg n (length done) (done ++ todo)
  = (rest ← mapM (fake_if_ungrouped humanize processors cfg) todo;
     Ok (done ++ rest)).
Proof.
  revert done n. induction todo as [|msg todo IH]; intros done n Hn.
  - simpl. destruct n as [|n]; simpl.
    + reflexivity.
    + rewrite lookup_ge_None_2 by (rewrite length_app; simpl; lia). reflexivity.
  - destruct n as [|n]; [simpl in Hn; lia|]. simpl in Hn.
    cbn [fake_ungrouped]. rewrite mapM_cons.
    rewrite list_lookup_middle by reflexivity.
    destruct (contains msg "msg_ids") eqn:Hc.
    + rewrite (fake_if_ungrouped_grouped _ _ _ Hc), bind_Ok.
      replace (done ++ msg :: todo) with ((done ++ [msg]) ++ todo)
        by (rewrite <- app_assoc; reflexivity).
      replace (S (length done)) with (length (done ++ [msg]))
        by (rewrite length_app; simpl; lia).
      rewrite IH by lia.
      destruct (mapM _ todo) as [rest|e]; simpl; [|reflexivity].
      rewrite <- app_assoc. reflexivity.
    + rewrite (fake_if_ungrouped_raw _ _ _ Hc).
      destruct (fake_conglomerate humanize processors msg cfg) as [fake|e];
        [|reflexivity].
      rewrite !bind_Ok.
      replace (<[length done := fake]> (done ++ msg :: todo))
        with ((done ++ [fake]) ++ todo).
      2:{ rewrite insert_app_r_alt, Nat.sub_diag by lia. simpl.
          rewrite <- app_assoc. reflexivity. }
      replace (S (length done)) with (length (done ++ [fake]))
        by (rewrite length_app; simpl; lia).
      rewrite IH by lia.
      destruct (mapM _ todo) as [rest|e]; simpl; [|reflexivity].
      rewrite <- app_assoc. reflexivity.
Qed.

(** [conglomerate] is the processors' steps followed by a map. *)
Lemma conglomerate_mapM (l : list Processor.t) (messages : list message)
    (cfg : config) :
  conglomerate humanize (ProcessorList l) messages cfg
  = (mid ← run_processors l messages cfg;
     mapM (fake_if_ungrouped humanize (ProcessorList l) cfg) mid).
Proof.
  unfold conglomerate. simpl.
  destruct (run_processors l messages cfg) as [mid|e]; [|reflexivity].
  rewrite !bind_Ok.
  rewrite (fake_ungrouped_mapM _ _ mid [] (length mid) (le_n _)). simpl.
  destruct (mapM _ mid); reflexivity.
Qed.

(** What went into a record that [fake_conglomerate] returned. *)
Lemma fake_conglomerate_inv (processors : registry) (msg : message)
    (cfg : config) (fake : message) :
  fake_conglomerate humanize processors msg cfg = Ok fake ->
  exists subtitle link icon secondary_icon timestamp human_time
         usernames packages msg_id,
    keyword_call msg2subtitle processors msg cfg = Ok subtitle /\
    keyword_call msg2link processors msg cfg = Ok link /\
    keyword_call msg2icon processors msg cfg = Ok icon /\
    keyword_call msg2secondary_icon processors msg cfg = Ok secondary_icon /\
    msg !! "timestamp" = Some timestamp /\
    humanize timestamp = Ok human_time /\
    keyword_call msg2usernames processors msg cfg = Ok usernames /\
    keyword_call msg2packages processors msg cfg = Ok packages /\
    msg !! "msg_id" = Some msg_id /\
    fake = <["subtitle" := text_value subtitle]>
           (<["link" := text_value link]>
           (<["icon" := text_value icon]>
           (<["secondary_icon" := text_value secondary_icon]>
           (<["start_time" := timestamp]>
           (<["end_time" := timestamp]>
           (<["timestamp" := timestamp]>
           (<["human_time" := VStr human_time]>
           (<["usernames" := VSet usernames]>
           (<["packages" := VSet packages]>
           (<["msg_ids" := VList [msg_id]]> ∅)))))))))).
Proof.
  unfold fake_conglomerate. intros H.
  apply bind_Ok_inv in H as (subtitle & Hsubtitle & H).
  apply bind_Ok_inv in H as (link & Hlink & H).
  apply bind_Ok_inv in H as (icon & Hicon & H).
  apply bind_Ok_inv in H as (secondary_icon & Hsecondary & H).
  apply bind_Ok_inv in H as (start_time & Hstart & H).
  apply bind_Ok_inv in H as (end_time & Hend & H).
  apply bind_Ok_inv in H as (timestamp & Htimestamp & H).
  apply bind_Ok_inv in H as (human_time & Hhuman & H).
  apply bind_Ok_inv in H as (usernames & Husernames & H).
  apply bind_Ok_inv in H as (packages & Hpackages & H).
  apply bind_Ok_inv in H as (msg_id & Hmsg_id & [= <-]).
  apply bind_Ok_inv in Hhuman as (t & Ht & Hhuman).
  apply getitem_Ok in Hstart, Hend, Htimestamp, Ht, Hmsg_id.
  assert (start_time = timestamp) as -> by congruence.
  assert (end_time = timestamp) as -> by congruence.
  assert (t = timestamp) as -> by congruence.
  exists subtitle, link, icon, secondary_icon, timestamp, human_time,
         usernames, packages, msg_id.
  repeat split; assumption.
Qed.

(** When every value of the dict display evaluates, so does the display. *)
Lemma fake_conglomerate_returns (processors : registry) (msg : message)
    (cfg : config) :
  is_Some (msg !! "timestamp") -> is_Some (msg !! "msg_id") ->
  (forall t, msg !! "timestamp" = Some t -> exists h, humanize t = Ok h) ->
  (exists v, keyword_call msg2subtitle processors msg cfg = Ok v) ->
  (exists v, keyword_call msg2link processors msg cfg = Ok v) ->
  (exists v, keyword_call msg2icon processors msg cfg = Ok v) ->
  (exists v, keyword_call msg2secondary_icon processors msg cfg = Ok v) ->
  (exists v, keyword_call msg2usernames processors msg cfg = Ok v) ->
  (exists v, keyword_call msg2packages processors msg cfg = Ok v) ->
  exists fake, fake_conglomerate humanize processors msg cfg = Ok fake.
Proof.
  intros [t Ht] [i Hi] Hh [? H1] [? H2] [? H3] [? H4] [? H5] [? H6].
  destruct (Hh t Ht) as [h Hh'].
  unfold fake_conglomerate, getitem.
  rewrite H1, H2, H3, H4, H5, H6, Ht, Hi. simpl. rewrite Hh'. simpl. eauto.
Qed.

(** C8: every element of the list the processors leave that has no
    [msg_ids] key is replaced, at its position, by a record built from
    it: [start_time], [end_time] and [timestamp] are the message's
    [timestamp], [human_time] is that timestamp humanized, [msg_ids] is
    the list of the message's [msg_id] alone, and [subtitle], [link],
    [icon], [secondary_icon], [usernames] and [packages] are what the
    per-field queries return for the message, called as [conglomerate]
    calls them: on the message, with the keywords it was given. *)
Theorem conglomerate_wraps_ungrouped (l : list Processor.t)
    (messages mid out : list message) (cfg : config) (i : nat) (msg : message) :
  run_processors l messages cfg = Ok mid ->
  conglomerate humanize (ProcessorList l) messages cfg = Ok out ->
  mid !! i = Some msg ->
  contains msg "msg_ids" = false ->
  exists subtitle link icon secondary_icon timestamp human_time
         usernames packages msg_id,
    keyword_call msg2subtitle (ProcessorList l) msg cfg = Ok subtitle /\
    keyword_call msg2link (ProcessorList l) msg cfg = Ok link /\
    keyword_call msg2icon (ProcessorList l) msg cfg = Ok icon /\
    keyword_call msg2secondary_icon (ProcessorList l) msg cfg = Ok secondary_icon /\
    msg !! "timestamp" = Some timestamp /\
    humanize timestamp = Ok human_time /\
    keyword_call msg2usernames (ProcessorList l) msg cfg = Ok usernames /\
    keyword_call msg2packages (ProcessorList l) msg cfg = Ok packages /\
    msg !! "msg_id" = Some msg_id /\
    out !! i = Some (<["subtitle" := text_value subtitle]>
                     (<["link" := text_value link]>
                     (<["icon" := text_value icon]>
                     (<["secondary_icon" := text_value secondary_icon]>
                     (<["start_time" := timestamp]>
                     (<["end_time" := timestamp]>
                     (<["timestamp" := timestamp]>
                     (<["human_time" := VStr human_time]>
                     (<["usernames" := VSet usernames]>
                     (<["packages" := VSet packages]>
                     (<["msg_ids" := VList [msg_id]]> ∅))))))))))).
Proof.
  intros Hmid Hout Hi Hraw.
  rewrite conglomerate_mapM, Hmid, bind_Ok in Hout.
  apply mapM_Ok_Forall2 in Hout.
  destruct (Forall2_lookup_l _ _ _ _ _ Hout Hi) as (fake & Hfake & Hwrap).
  rewrite (fake_if_ungrouped_raw _ _ _ Hraw) in Hwrap.
  apply fake_conglomerate_inv in Hwrap
    as (subtitle & link & icon & secondary_icon & timestamp & human_time
        & usernames & packages & msg_id & H).
  exists subtitle, link, icon, secondary_icon, timestamp, human_time,
         usernames, packages, msg_id.
  destruct H as (? & ? & ? & ? & ? & ? & ? & ? & ? & ->).
  repeat split; assumption.
Qed.

(** The elements that bear [msg_ids] stay as and where they are, and the
    list keeps its length. *)
Lemma conglomerate_keeps_grouped (l : list Processor.t)
    (messages mid out : list message) (cfg : config) :
  run_processors l messages cfg = Ok mid ->
  conglomerate humanize (ProcessorList l) messages cfg = Ok out ->
  length out = length mid /\
  forall i msg,
    mid !! i = Some msg -> contains msg "msg_ids" = true -> out !! i = Some msg.
Proof.
  intros Hmid Hout.
  rewrite conglomerate_mapM, Hmid, bind_Ok in Hout.
  apply mapM_Ok_Forall2 in Hout. split.
  - symmetry. exact (Forall2_length _ _ _ Hout).
  - intros i msg Hi Hg.
    destruct (Forall2_lookup_l _ _ _ _ _ Hout Hi) as (fake & Hfake & Hwrap).
    rewrite (fake_if_ungrouped_grouped _ _ _ Hg) in Hwrap. congruence.
Qed.

(** [conglomerate] returns when the processors' steps do and every
    ungrouped element they leave can be wrapped. *)
Lemma conglomerate_returns (l : list Processor.t)
    (messages mid : list message) (cfg : config) :
  run_processors l messages cfg = Ok mid ->
  Forall (fun msg =>
            contains msg "msg_ids" = false ->
            exists fake,
              fake_conglomerate humanize (ProcessorList l) msg cfg = Ok fake) mid ->
  exists out, conglomerate humanize (ProcessorList l) messages cfg = Ok out.
Proof.
  intros Hmid Hall. rewrite conglomerate_mapM, Hmid, bind_Ok.
  clear Hmid. induction Hall as [|msg mid Hmsg _ [out IH]].
  - exists []. reflexivity.
  - destruct (contains msg "msg_ids") eqn:Hc.
    + exists (msg :: out).
      rewrite mapM_cons, (fake_if_ungrouped_grouped _ _ _ Hc), IH. reflexivity.
    + destruct (Hmsg eq_refl) as [fake Hfake]. exists (fake :: out).
      rewrite mapM_cons, (fake_if_ungrouped_raw _ _ _ Hc), Hfake, IH.
      reflexivity.
Qed.

(** *** Coverage *)

Lemma run_processors_coverage (l : list Processor.t)
    (messages mid : list message) (cfg : config) :
  Forall (fun p => preserves_coverage p cfg) l ->
  run_processors l messages cfg = Ok mid ->
  coverage mid ≡ₚ coverage messages.
Proof.
  intros Hl. revert messages. induction Hl as [|p l Hp _ IH]; intros messages H.
  - injection H as <-. reflexivity.
  - simpl in H. apply bind_Ok_inv in H as (messages' & Hstep & H).
    rewrite (IH _ H). exact (Hp _ _ Hstep).
Qed.

(** A wrapped element bears [msg_ids] and stands for the ids it stood
    for before. *)
Lemma fake_if_ungrouped_coverage (processors : registry) (cfg : config)
    (msg fake : message) :
  fake_if_ungrouped humanize processors cfg msg = Ok fake ->
  contains fake "msg_ids" = true /\ msg_ids_of fake = msg_ids_of msg.
Proof.
  intros H. destruct (contains msg "msg_ids") eqn:Hc.
  - rewrite (fake_if_ungrouped_grouped _ _ _ Hc) in H. injection H as <-.
    split; [assumption | reflexivity].
  - rewrite (fake_if_ungrouped_raw _ _ _ Hc) in H.
    apply fake_conglomerate_inv in H
      as (subtitle & link & icon & secondary_icon & timestamp & human_time
          & usernames & packages & msg_id & _ & _ & _ & _ & _ & _ & _ & _
          & Hid & ->).
    assert (contains
              (<["subtitle" := text_value subtitle]>
               (<["link" := text_value link]>
               (<["icon" := text_value icon]>
               (<["secondary_icon" := text_value secondary_icon]>
               (<["start_time" := timestamp]>
               (<["end_time" := timestamp]>
               (<["timestamp" := timestamp]>
               (<["human_time" := VStr human_time]>
               (<["usernames" := VSet usernames]>
               (<["packages" := VSet packages]>
               (<["msg_ids" := VList [msg_id]]> ∅)))))))))))
              "msg_ids" = true) as Hg.
    { apply contains_true. exists (VList [msg_id]). by simplify_map_eq. }
    split; [exact Hg|].
    unfold msg_ids_of. rewrite Hg, Hc, Hid.
    unfold record_msg_ids. by simplify_map_eq.
Qed.

Lemma mapM_fake_coverage (processors : registry) (cfg : config)
    (mid out : list message) :
  mapM (fake_if_ungrouped humanize processors cfg) mid = Ok out ->
  Forall (fun r => contains r "msg_ids" = true) out /\
  coverage out = coverage mid.
Proof.
  intros H. apply mapM_Ok_Forall2 in H.
  induction H as [|msg fake mid out Hwrap _ [IHg IHc]].
  - split; [constructor | reflexivity].
  - apply fake_if_ungrouped_coverage in Hwrap as [Hg Hids]. split.
    + constructor; assumption.
    + unfold coverage in *. rewrite !bind_cons, Hids, IHc. reflexivity.
Qed.

(** Raw messages that each bear a [msg_id] stand for exactly those. *)
Lemma coverage_raw (messages : list message) :
  Forall (fun m => contains m "msg_ids" = false /\ contains m "msg_id" = true)
    messages ->
  coverage messages = input_ids messages /\
  length (input_ids messages) = length messages.
Proof.
  induction 1 as [|m messages [Hraw Hid] _ [IHc IHl]].
  - split; reflexivity.
  - apply contains_true in Hid as [v Hv].
    assert (input_ids (m :: messages) = v :: input_ids messages) as ->.
    { unfold input_ids. simpl. rewrite Hv. reflexivity. }
    assert (coverage (m :: messages) = v :: coverage messages) as ->.
    { unfold coverage. rewrite bind_cons. unfold msg_ids_of at 1.
      rewrite Hraw, Hv. reflexivity. }
    split; [rewrite IHc; reflexivity | simpl; rewrite IHl; reflexivity].
Qed.

(** Over records, coverage is the concatenation of the [msg_ids]. *)
Lemma coverage_grouped (out : list message) :
  Forall (fun r => contains r "msg_ids" = true) out ->
  coverage out = out ≫= record_msg_ids.
Proof.
  induction 1 as [|r out Hr _ IH]; [reflexivity|].
  unfold coverage in *. rewrite !bind_cons, IH.
  unfold msg_ids_of. rewrite Hr. reflexivity.
Qed.

(** C1: when [conglomerate] is given raw messages that each bear a
    [msg_id], and every registered processor's conglomerate step
    preserves coverage, every element it returns is a record with
    [msg_ids], and the [msg_ids] of the records, put together, are the
    input [msg_id]s, each as often as it was given: none is dropped, and
    none appears twice unless it was given twice. *)
Theorem conglomerate_partition (l : list Processor.t)
    (messages out : list message) (cfg : config) :
  Forall (fun m => contains m "msg_ids" = false /\ contains m "msg_id" = true)
    messages ->
  Forall (fun p => preserves_coverage p cfg) l ->
  conglomerate humanize (ProcessorList l) messages cfg = Ok out ->
  Forall (fun r => contains r "msg_ids" = true) out /\
  length (input_ids messages) = length messages /\
  out ≫= record_msg_ids ≡ₚ input_ids messages /\
  (NoDup (input_ids messages) -> NoDup (out ≫= record_msg_ids)).
Proof.
  intros Hraw Hl Hout.
  rewrite conglomerate_mapM in Hout.
  apply bind_Ok_inv in Hout as (mid & Hmid & Hout).
  apply mapM_fake_coverage in Hout as [Hg Hc].
  apply coverage_raw in Hraw as [Hin Hlen].
  assert (out ≫= record_msg_ids ≡ₚ input_ids messages) as Hperm.
  { rewrite <- (coverage_grouped _ Hg), Hc, <- Hin.
    exact (run_processors_coverage _ _ _ _ Hl Hmid). }
  repeat split; try assumption.
  intros Hnd. rewrite Hperm. exact Hnd.
Qed.

(** *** A list that is already conglomerated *)

Lemma run_processors_grouped (l : list Processor.t) (messages : list message)
    (cfg : config) :
  Forall (fun p => keeps_grouped p cfg) l ->
  Forall (fun m => contains m "msg_ids" = true) messages ->
  run_processors l messages cfg = Ok messages.
Proof.
  intros Hl Hg. induction Hl as [|p l Hp _ IH]; [reflexivity|].
  simpl. rewrite (Hp _ Hg). exact IH.
Qed.

Lemma mapM_fake_grouped (processors : registry) (cfg : config)
    (messages : list message) :
  Forall (fun m => contains m "msg_ids" = true) messages ->
  mapM (fake_if_ungrouped humanize processors cfg) messages = Ok messages.
Proof.
  induction 1 as [|m messages Hm _ IH]; [reflexivity|].
  rewrite mapM_cons, (fake_if_ungrouped_grouped _ _ _ Hm), IH. reflexivity.
Qed.

(** C7: a list whose elements all bear [msg_ids] comes back from
    [conglomerate] unchanged, provided every registered processor's
    conglomerate step leaves such a list as it is. *)
Theorem conglomerate_idempotent (l : list Processor.t)
    (messages : list message) (cfg : config) :
  Forall (fun m => contains m "msg_ids" = true) messages ->
  Forall (fun p => keeps_grouped p cfg) l ->
  conglomerate humanize (ProcessorList l) messages cfg = Ok messages.
Proof.
  intros Hg Hl.
  rewrite conglomerate_mapM, (run_processors_grouped _ _ _ Hl Hg), bind_Ok.
  exact (mapM_fake_grouped _ _ _ Hg).
Qed.

(** X13: running [conglomerate] on its own result changes nothing, when
    every processor's step leaves a list of records as it is. *)
Lemma conglomerate_twice (l : list Processor.t)
    (messages out : list message) (cfg : config) :
  Forall (fun p => keeps_grouped p cfg) l ->
  conglomerate humanize (ProcessorList l) messages cfg = Ok out ->
  conglomerate humanize (ProcessorList l) out cfg = Ok out.
Proof.
  intros Hl Hout.
  rewrite conglomerate_mapM in Hout.
  apply bind_Ok_inv in Hout as (mid & _ & Hout).
  apply mapM_fake_coverage in Hout as [Hg _].
  rewrite conglomerate_mapM, (run_processors_grouped _ _ _ Hl Hg), bind_Ok.
  exact (mapM_fake_grouped _ _ _ Hg).
Qed.

End ConglomerateFacts.

(** ** The statements above at sample inputs *)

Lemma topical_preserves_coverage (claim : value) (cfg : config) :
  preserves_coverage (Examples.topical claim) cfg.
Proof. intros messages messages' [= <-]. reflexivity. Qed.

Lemma topical_keeps_grouped (claim : value) (cfg : config) :
  keeps_grouped (Examples.topical claim) cfg.
Proof. intros messages _. reflexivity. Qed.

Lemma pairing_preserves_coverage (cfg : config) :
  preserves_coverage Examples.pairing cfg.
Proof.
  intros messages messages'. simpl. unfold Examples.pair_up.
  destruct messages as [|a [|b rest]]; try (intros [= <-]; reflexivity).
  destruct (Examples.is_raw a) eqn:Ha; simpl;
    [|intros [= <-]; reflexivity].
  destruct (Examples.is_raw b) eqn:Hb; simpl;
    [|intros [= <-]; reflexivity].
  destruct (a !! "msg_id") as [x|] eqn:Hx; [|intros [= <-]; reflexivity].
  destruct (b !! "msg_id") as [y|] eqn:Hy; intros [= <-]; [|reflexivity].
  unfold Examples.is_raw in Ha, Hb.
  apply negb_true_iff in Ha, Hb.
  unfold coverage. rewrite !bind_cons.
  unfold msg_ids_of at 1 3 4. rewrite Ha, Hb, Hx, Hy.
  reflexivity.
Qed.

Lemma pairing_keeps_grouped (cfg : config) :
  keeps_grouped Examples.pairing cfg.
Proof.
  intros messages Hg. simpl. unfold Examples.pair_up.
  destruct Hg as [|a messages Ha Hg]; [reflexivity|].
  destruct Hg as [|b messages Hb Hg]; [reflexivity|].
  unfold Examples.is_raw. rewrite Ha. reflexivity.
Qed.

(** Three raw messages, of which the first two get paired and the third
    is wrapped on its own. *)
Lemma conglomerate_partition_witness :
  exists out,
    conglomerate Examples.clock
      (ProcessorList [Examples.pairing; Examples.topical (VBool true)])
      [Examples.commit; Examples.vote; Examples.build] ∅ = Ok out /\
    length out = 2 /\
    out ≫= record_msg_ids ≡ₚ [VStr "1"; VStr "2"; VStr "6"].
Proof.
  eexists. split; [reflexivity|]. split; [reflexivity|].
  apply (conglomerate_partition Examples.clock
           [Examples.pairing; Examples.topical (VBool true)]
           [Examples.commit; Examples.vote; Examples.build] _ ∅).
  - repeat constructor.
  - constructor; [apply pairing_preserves_coverage|].
    constructor; [apply topical_preserves_coverage|]. constructor.
  - reflexivity.
Defined.

(** A list of two records, through a registry that pairs raw messages. *)
Lemma conglomerate_idempotent_witness :
  conglomerate Examples.clock
    (ProcessorList [Examples.pairing; Examples.topical (VBool true)])
    [Examples.grouped; Examples.grouped] ∅
  = Ok [Examples.grouped; Examples.grouped].
Proof.
  apply (conglomerate_idempotent Examples.clock
           [Examples.pairing; Examples.topical (VBool true)]
           [Examples.grouped; Examples.grouped] ∅).
  - repeat constructor.
  - constructor; [apply pairing_keeps_grouped|].
    constructor; [apply topical_keeps_grouped|]. constructor.
Defined.

(** A record between two raw messages: the raw message at position 2 is
    replaced by the record made from it. *)
Lemma conglomerate_wraps_ungrouped_witness :
  exists out,
    conglomerate Examples.clock (ProcessorList [Examples.topical (VBool true)])
      [Examples.commit; Examples.grouped; Examples.vote] ∅ = Ok out /\
    out !! 2 = Some (<["subtitle" := VStr "something happened"]>
                     (<["link" := VNone]>
                     (<["icon" := VNone]>
                     (<["secondary_icon" := VNone]>
                     (<["start_time" := VNum 200]>
                     (<["end_time" := VNum 200]>
                     (<["timestamp" := VNum 200]>
                     (<["human_time" := VStr "just now"]>
                     (<["usernames" := VSet {["ralph"]}]>
                     (<["packages" := VSet ∅]>
                     (<["msg_ids" := VList [VStr "2"]]> ∅))))))))))).
Proof.
  assert (exists out,
             conglomerate Examples.clock
               (ProcessorList [Examples.topical (VBool true)])
               [Examples.commit; Examples.grouped; Examples.vote] ∅ = Ok out)
    as [out Hout] by (eexists; reflexivity).
  exists out. split; [exact Hout|].
  destruct (conglomerate_wraps_ungrouped Examples.clock
              [Examples.topical (VBool true)]
              [Examples.commit; Examples.grouped; Examples.vote]
              [Examples.commit; Examples.grouped; Examples.vote]
              out ∅ 2 Examples.vote eq_refl Hout eq_refl eq_refl)
    as (subtitle & link & icon & secondary_icon & timestamp & human_time
        & usernames & packages & msg_id
        & [= <-] & [= <-] & [= <-] & [= <-] & [= <-] & [= <-]
        & [= <-] & [= <-] & [= <-] & H).
  exact H.
Defined.

(** * Further properties *)

(** ** Dispatch, read backwards *)

Lemma first_handler_None_inv (l : list Processor.t) (msg : message) (cfg : config) :
  first_handler l msg cfg = Ok None -> Forall (no_opinion msg cfg) l.
Proof.
  induction l as [|q l IH]; simpl; [constructor|].
  intros H. apply bind_Ok_inv in H as (v & Hq & H).
  destruct v; simpl in H; try discriminate.
  constructor; [exact Hq | exact (IH H)].
Qed.

Lemma first_handler_Raise_inv (l : list Processor.t) (msg : message) (cfg : config)
    (e : exn) :
  first_handler l msg cfg = Raise e ->
  exists pre p post,
    l = pre ++ p :: post /\ Forall (no_opinion msg cfg) pre /\
    Processor.handle_msg p msg cfg = Raise e.
Proof.
  induction l as [|q l IH]; simpl; [discriminate|].
  destruct (Processor.handle_msg q msg cfg) as [v|e'] eqn:Hq; simpl.
  - destruct (is_None v) eqn:Hv; [|discriminate].
    intros H. destruct (IH H) as (pre & p & post & -> & Hpre & Hp).
    exists (q :: pre), p, post. repeat split; try assumption.
    constructor; [|assumption]. destruct v; try discriminate. exact Hq.
  - intros [= <-]. exists [], q, l. repeat split; [constructor | exact Hq].
Qed.

(** X1: a processor that [msg2processor] returns is registered, and it is
    either the first one whose probe did not return [None], or the last
    entry of a registry in which every probe returned [None]. *)
Theorem msg2processor_returns_inv (l : list Processor.t) (msg : message)
    (cfg : config) (p : Processor.t) :
  msg2processor (ProcessorList l) msg cfg = Ok p ->
  p ∈ l /\
  ((exists pre post v,
       l = pre ++ p :: post /\ Forall (no_opinion msg cfg) pre /\
       Processor.handle_msg p msg cfg = Ok v /\ v <> VNone) \/
   (Forall (no_opinion msg cfg) l /\ last l = Some p)).
Proof.
  unfold msg2processor. simpl. intros H.
  apply bind_Ok_inv in H as ([q|] & Hfound & H).
  - injection H as ->.
    destruct (first_handler_Some _ _ _ _ Hfound)
      as (pre & post & v & -> & Hpre & Hp & Hv).
    split.
    + apply elem_of_app. right. apply elem_of_cons. left. reflexivity.
    + left. exists pre, post, v. repeat split; assumption.
  - unfold last_entry in H. destruct (last l) as [q|] eqn:Hlast; [|discriminate].
    injection H as ->. split.
    + apply last_Some in Hlast as [l' ->].
      apply elem_of_app. right. apply list_elem_of_singleton. reflexivity.
    + right. split; [exact (first_handler_None_inv _ _ _ Hfound) | reflexivity].
Qed.

Lemma msg2processor_returns_inv_witness :
  Examples.topical (VBool true)
    ∈ [Examples.topical VNone; Examples.topical (VBool true)].
Proof.
  apply (msg2processor_returns_inv
           [Examples.topical VNone; Examples.topical (VBool true)]
           Examples.commit ∅ (Examples.topical (VBool true)) eq_refl).
Defined.

(** X2: [msg2processor] raises on a list registry in two cases only: the
    list is empty, and the error is [IndexError]; or a probe raises
    before any processor has claimed the message, and the error is the
    probe's. *)
Theorem msg2processor_raises_iff (l : list Processor.t) (msg : message)
    (cfg : config) (e : exn) :
  msg2processor (ProcessorList l) msg cfg = Raise e <->
  (l = [] /\ e = IndexError) \/
  (exists pre p post,
      l = pre ++ p :: post /\ Forall (no_opinion msg cfg) pre /\
      Processor.handle_msg p msg cfg = Raise e).
Proof.
  split.
  - unfold msg2processor. simpl.
    destruct (first_handler l msg cfg) as [[q|]|e'] eqn:Hfound; simpl.
    + discriminate.
    + unfold last_entry. destruct (last l) as [q|] eqn:Hlast; [discriminate|].
      intros [= <-]. left. apply last_None in Hlast. split; [assumption|reflexivity].
    + intros [= <-]. right. exact (first_handler_Raise_inv _ _ _ _ Hfound).
  - intros [[-> ->] | (pre & p & post & -> & Hpre & Hp)].
    + reflexivity.
    + exact (msg2processor_raise _ _ _ _ _ _ Hpre Hp).
Qed.

(** X3: with nothing registered, dispatch raises [IndexError], and so do
    every per-field query called without the [processor] keyword and
    [msg2repr] whatever it is called with; legacy mode does not turn the
    error into an empty value. *)
Theorem empty_registry_IndexError (msg : message) (legacy : bool)
    (processor : option Processor.t) (cfg : config) :
  msg2processor (ProcessorList []) msg cfg = Raise IndexError /\
  fields_raise (ProcessorList []) msg legacy cfg IndexError /\
  msg2repr (ProcessorList []) msg legacy processor cfg = Raise IndexError.
Proof.
  split; [reflexivity|]. split.
  - unfold_queries.
    repeat match goal with |- _ /\ _ => split end;
      rewrite (query_dispatch_raise _ _ _ _ _ _ _ (msg2processor_empty msg cfg));
      simpl; rewrite andb_false_r; reflexivity.
  - unfold msg2repr, legacy_condition, with_processor.
    destruct processor as [q|]; [destruct (Processor.truth q)|];
      destruct legacy; reflexivity.
Qed.

(** ** The decorators, whatever the query *)

Lemma legacy_condition_keeps {A : Type} (cls : A)
    (f : registry -> message -> option Processor.t -> config -> result A)
    (processors : registry) (msg : message) (processor : option Processor.t)
    (cfg : config) (a : A) :
  legacy_condition cls f processors msg false processor cfg = Ok a ->
  legacy_condition cls f processors msg true processor cfg = Ok a.
Proof.
  rewrite legacy_condition_off, legacy_condition_on. intros ->. reflexivity.
Qed.

Lemma legacy_condition_no_KeyError {A : Type} (cls : A)
    (f : registry -> message -> option Processor.t -> config -> result A)
    (processors : registry) (msg : message) (processor : option Processor.t)
    (cfg : config) (key : string) :
  legacy_condition cls f processors msg true processor cfg <> Raise (KeyError key).
Proof.
  rewrite legacy_condition_on.
  destruct (f processors msg processor cfg) as [a|[]]; discriminate.
Qed.

(** X7: legacy mode never changes an answer: what a query returns without
    [legacy] it returns with [legacy=True] as well, whichever way the
    processor is found. *)
Theorem legacy_keeps_answers (processors : registry) (msg : message)
    (processor : option Processor.t) (cfg : config) :
  (forall a,
      msg2title processors msg false processor cfg = Ok a ->
      msg2title processors msg true processor cfg = Ok a) /\
  (forall a,
      msg2subtitle processors msg false processor cfg = Ok a ->
      msg2subtitle processors msg true processor cfg = Ok a) /\
  (forall a,
      msg2link processors msg false processor cfg = Ok a ->
      msg2link processors msg true processor cfg = Ok a) /\
  (forall a,
      msg2icon processors msg false processor cfg = Ok a ->
      msg2icon processors msg true processor cfg = Ok a) /\
  (forall a,
      msg2secondary_icon processors msg false processor cfg = Ok a ->
      msg2secondary_icon processors msg true processor cfg = Ok a) /\
  (forall a,
      msg2usernames processors msg false processor cfg = Ok a ->
      msg2usernames processors msg true processor cfg = Ok a) /\
  (forall a,
      msg2packages processors msg false processor cfg = Ok a ->
      msg2packages processors msg true processor cfg = Ok a) /\
  (forall a,
      msg2objects processors msg false processor cfg = Ok a ->
      msg2objects processors msg true processor cfg = Ok a) /\
  (forall a,
      msg2emails processors msg false processor cfg = Ok a ->
      msg2emails processors msg true processor cfg = Ok a) /\
  (forall a,
      msg2avatars processors msg false processor cfg = Ok a ->
      msg2avatars processors msg true processor cfg = Ok a) /\
  (forall a,
      msg2repr processors msg false processor cfg = Ok a ->
      msg2repr processors msg true processor cfg = Ok a).
Proof.
  unfold_queries.
  repeat match goal with |- _ /\ _ => split end;
    intros a; apply legacy_condition_keeps.
Qed.

Lemma legacy_keeps_answers_witness :
  msg2usernames (ProcessorList [Examples.topical (VBool true)])
    Examples.commit true None ∅ = Ok {["ralph"]}.
Proof.
  apply (legacy_keeps_answers (ProcessorList [Examples.topical (VBool true)])
           Examples.commit None ∅).
  reflexivity.
Defined.

(** X8: in legacy mode no query raises [KeyError], wherever in the call it
    came from. *)
Theorem legacy_never_KeyError (processors : registry) (msg : message)
    (processor : option Processor.t) (cfg : config) :
  (forall key,
      msg2title processors msg true processor cfg <> Raise (KeyError key)) /\
  (forall key,
      msg2subtitle processors msg true processor cfg <> Raise (KeyError key)) /\
  (forall key,
      msg2link processors msg true processor cfg <> Raise (KeyError key)) /\
  (forall key,
      msg2icon processors msg true processor cfg <> Raise (KeyError key)) /\
  (forall key,
      msg2secondary_icon processors msg true processor cfg <> Raise (KeyError key)) /\
  (forall key,
      msg2usernames processors msg true processor cfg <> Raise (KeyError key)) /\
  (forall key,
      msg2packages processors msg true processor cfg <> Raise (KeyError key)) /\
  (forall key,
      msg2objects processors msg true processor cfg <> Raise (KeyError key)) /\
  (forall key,
      msg2emails processors msg true processor cfg <> Raise (KeyError key)) /\
  (forall key,
      msg2avatars processors msg true processor cfg <> Raise (KeyError key)) /\
  (forall key,
      msg2repr processors msg true processor cfg <> Raise (KeyError key)).
Proof.
  unfold_queries.
  repeat match goal with |- _ /\ _ => split end;
    intros key; apply legacy_condition_no_KeyError.
Qed.

(** X9: a per-field query that is handed a processor whose truth value is
    true never reads the registry: it answers the same whatever the
    registry is, initialised or not. *)
Theorem given_processor_bypasses_registry (processors processors' : registry)
    (msg : message) (legacy : bool) (cfg : config) (p : Processor.t) :
  Processor.truth p = true ->
  msg2title processors msg legacy (Some p) cfg
  = msg2title processors' msg legacy (Some p) cfg /\
  msg2subtitle processors msg legacy (Some p) cfg
  = msg2subtitle processors' msg legacy (Some p) cfg /\
  msg2link processors msg legacy (Some p) cfg
  = msg2link processors' msg legacy (Some p) cfg /\
  msg2icon processors msg legacy (Some p) cfg
  = msg2icon processors' msg legacy (Some p) cfg /\
  msg2secondary_icon processors msg legacy (Some p) cfg
  = msg2secondary_icon processors' msg legacy (Some p) cfg /\
  msg2usernames processors msg legacy (Some p) cfg
  = msg2usernames processors' msg legacy (Some p) cfg /\
  msg2packages processors msg legacy (Some p) cfg
  = msg2packages processors' msg legacy (Some p) cfg /\
  msg2objects processors msg legacy (Some p) cfg
  = msg2objects processors' msg legacy (Some p) cfg /\
  msg2emails processors msg legacy (Some p) cfg
  = msg2emails processors' msg legacy (Some p) cfg /\
  msg2avatars processors msg legacy (Some p) cfg
  = msg2avatars processors' msg legacy (Some p) cfg.
Proof.
  intros Hp. unfold_queries.
  repeat match goal with |- _ /\ _ => split end;
    rewrite !(query_given_processor _ _ _ _ _ _ _ Hp); reflexivity.
Qed.

Lemma given_processor_bypasses_registry_witness :
  msg2subtitle processors_at_import Examples.commit false
    (Some (Examples.topical VNone)) ∅
  = msg2subtitle (ProcessorList []) Examples.commit false
      (Some (Examples.topical VNone)) ∅.
Proof.
  apply (given_processor_bypasses_registry processors_at_import (ProcessorList [])
           Examples.commit false ∅ (Examples.topical VNone) eq_refl).
Defined.

(** X10: a processor passed by keyword whose truth value is false is ignored:
    the query dispatches as if none had been passed. *)
Theorem falsy_processor_is_ignored (processors : registry) (msg : message)
    (legacy : bool) (cfg : config) (q : Processor.t) :
  Processor.truth q = false ->
  msg2title processors msg legacy (Some q) cfg
  = msg2title processors msg legacy None cfg /\
  msg2subtitle processors msg legacy (Some q) cfg
  = msg2subtitle processors msg legacy None cfg /\
  msg2link processors msg legacy (Some q) cfg
  = msg2link processors msg legacy None cfg /\
  msg2icon processors msg legacy (Some q) cfg
  = msg2icon processors msg legacy None cfg /\
  msg2secondary_icon processors msg legacy (Some q) cfg
  = msg2secondary_icon processors msg legacy None cfg /\
  msg2usernames processors msg legacy (Some q) cfg
  = msg2usernames processors msg legacy None cfg /\
  msg2packages processors msg legacy (Some q) cfg
  = msg2packages processors msg legacy None cfg /\
  msg2objects processors msg legacy (Some q) cfg
  = msg2objects processors msg legacy None cfg /\
  msg2emails processors msg legacy (Some q) cfg
  = msg2emails processors msg legacy None cfg /\
  msg2avatars processors msg legacy (Some q) cfg
  = msg2avatars processors msg legacy None cfg /\
  msg2repr processors msg legacy (Some q) cfg
  = msg2repr processors msg legacy None cfg.
Proof.
  intros Hq. unfold_queries. unfold legacy_condition, with_processor.
  rewrite Hq. repeat split.
Qed.

Lemma falsy_processor_is_ignored_witness :
  msg2title (ProcessorList [Examples.topical (VBool true)]) Examples.commit false
    (Some Examples.falsy) ∅
  = msg2title (ProcessorList [Examples.topical (VBool true)]) Examples.commit false
      None ∅.
Proof.
  apply (falsy_processor_is_ignored (ProcessorList [Examples.topical (VBool true)])
           Examples.commit false ∅ Examples.falsy eq_refl).
Defined.

(** [msg2repr] with the processor [pairing] passed by keyword on a
    registry that resolves the message to [topical]: the title is
    [topical]'s, subtitle and link are [pairing]'s. *)
Lemma msg2repr_given_processor_witness :
  msg2repr (ProcessorList [Examples.topical (VBool true)]) Examples.commit false
    (Some Examples.pairing) ∅
  = Ok "event -- None ".
Proof.
  apply (msg2repr_given_processor (ProcessorList [Examples.topical (VBool true)])
           Examples.commit false ∅ (Examples.topical (VBool true)) Examples.pairing
           (Some "event") None None eq_refl eq_refl eq_refl eq_refl eq_refl).
Defined.

(** ** Initialisation and what follows it *)

Section MakeProcessorsMore.

Variable gettext : string -> string.
Variable DefaultProcessor : (string -> string) -> config -> Processor.t.

Lemma constructed_app (cfg : config) (eps1 eps2 : list entry_point) :
  constructed gettext cfg (eps1 ++ eps2)
  = constructed gettext cfg eps1 ++ constructed gettext cfg eps2.
Proof. unfold constructed. apply omap_app. Qed.

Lemma failures_app (cfg : config) (eps1 eps2 : list entry_point) :
  failures gettext cfg (eps1 ++ eps2)
  = failures gettext cfg eps1 ++ failures gettext cfg eps2.
Proof. unfold failures. apply bind_app. Qed.

(** X5: an entry point whose load or constructor raises an [Exception]
    is skipped and nothing else: the registry is the one the other entry
    points give without it, and the log has the failed-to-load warning
    made from its name and the exception. *)
Theorem make_processors_failure_isolated (eps1 eps2 : list entry_point)
    (bad : entry_point) (cfg : config) (st : state) (e : exn) :
  (cls ← load bad; cls gettext cfg) = Raise e ->
  st_processors
    (make_processors gettext DefaultProcessor (eps1 ++ bad :: eps2) cfg st)
  = st_processors (make_processors gettext DefaultProcessor (eps1 ++ eps2) cfg st) /\
  WarnFailedToLoad (name bad)
    ∈ st_log (make_processors gettext DefaultProcessor (eps1 ++ bad :: eps2) cfg st) /\
  LogException e
    ∈ st_log (make_processors gettext DefaultProcessor (eps1 ++ bad :: eps2) cfg st).
Proof.
  intros Hbad.
  assert (constructed gettext cfg (eps1 ++ bad :: eps2)
          = constructed gettext cfg (eps1 ++ eps2)) as Hc.
  { rewrite !constructed_app. f_equal. unfold constructed. simpl.
    rewrite Hbad. reflexivity. }
  assert (failures gettext cfg (eps1 ++ bad :: eps2)
          = failures gettext cfg eps1
            ++ [WarnFailedToLoad (name bad); LogException e]
            ++ failures gettext cfg eps2) as Hf.
  { rewrite failures_app. f_equal. unfold failures. rewrite bind_cons.
    rewrite Hbad. reflexivity. }
  rewrite !make_processors_spec. simpl. rewrite Hc, Hf. split; [reflexivity|].
  split.
  - apply elem_of_app. right. apply elem_of_app. left.
    apply elem_of_app. right. apply elem_of_app. left.
    apply elem_of_cons. left. reflexivity.
  - apply elem_of_app. right. apply elem_of_app. left.
    apply elem_of_app. right. apply elem_of_app. left.
    apply elem_of_cons. right. apply elem_of_cons. left. reflexivity.
Qed.

(** X4: after [make_processors], a message on which no loaded plugin has an
    opinion is dispatched to the default processor, whether the default
    processor claims it or answers [None] as well: the fallback index
    never misses. *)
Theorem dispatch_falls_back_to_default (entry_points : list entry_point)
    (cfg : config) (st : state) (msg : message) (cfg' : config) (v : value) :
  Forall (no_opinion msg cfg') (constructed gettext cfg entry_points) ->
  Processor.handle_msg (DefaultProcessor gettext cfg) msg cfg' = Ok v ->
  msg2processor
    (st_processors (make_processors gettext DefaultProcessor entry_points cfg st))
    msg cfg'
  = Ok (DefaultProcessor gettext cfg).
Proof.
  intros Hplugins Hdefault. rewrite make_processors_spec. simpl.
  unfold msg2processor. simpl.
  destruct (is_None v) eqn:Hv.
  - destruct v; try discriminate.
    rewrite first_handler_no_opinion.
    + simpl. unfold last_entry. rewrite last_snoc. reflexivity.
    + apply Forall_app. split; [assumption|].
      constructor; [exact Hdefault | constructor].
  - rewrite (first_handler_claim _ [] _ _ _ v Hplugins Hdefault).
    + reflexivity.
    + intros ->. discriminate.
Qed.

End MakeProcessorsMore.

Lemma make_processors_failure_isolated_witness :
  st_processors
    (make_processors (fun s => s) (fun _ _ => Examples.topical (VBool true))
       ([Examples.plugin (fun _ _ => Ok Examples.pairing)]
        ++ Examples.unloadable :: []) ∅ state_at_import)
  = ProcessorList [Examples.pairing; Examples.topical (VBool true)].
Proof.
  apply (make_processors_failure_isolated (fun s => s)
           (fun _ _ => Examples.topical (VBool true))
           [Examples.plugin (fun _ _ => Ok Examples.pairing)] []
           Examples.unloadable ∅ state_at_import
           (OtherException "ImportError") eq_refl).
Defined.

Lemma dispatch_falls_back_to_default_witness :
  msg2processor
    (st_processors
       (make_processors (fun s => s) (fun _ _ => Examples.topical (VBool true))
          [Examples.plugin (fun _ _ => Ok Examples.pairing); Examples.unloadable]
          ∅ state_at_import))
    Examples.commit ∅
  = Ok (Examples.topical (VBool true)).
Proof.
  apply (dispatch_falls_back_to_default (fun s => s)
           (fun _ _ => Examples.topical (VBool true))
           [Examples.plugin (fun _ _ => Ok Examples.pairing); Examples.unloadable]
           ∅ state_at_import Examples.commit ∅ (VBool true)).
  - constructor; [reflexivity | constructor].
  - reflexivity.
Defined.

(** ** Conglomerate: shape of the result and failures *)

Lemma mapM_raise {A B : Type} (f : A -> result B) (pre post : list A) (x : A)
    (e : exn) :
  Forall (fun y => exists z, f y = Ok z) pre ->
  f x = Raise e ->
  mapM f (pre ++ x :: post) = Raise e.
Proof.
  intros Hpre Hx. induction Hpre as [|y pre [z Hy] _ IH]; simpl.
  - rewrite Hx. reflexivity.
  - rewrite Hy. simpl. rewrite IH. reflexivity.
Qed.

Lemma run_processors_app (pre post : list Processor.t) (messages : list message)
    (cfg : config) :
  run_processors (pre ++ post) messages cfg
  = (mid ← run_processors pre messages cfg; run_processors post mid cfg).
Proof.
  revert messages. induction pre as [|p pre IH]; intros messages; simpl.
  - reflexivity.
  - destruct (Processor.conglomerate p messages cfg) as [messages'|e]; simpl;
      [apply IH | reflexivity].
Qed.

(** *** Keywords handed on to a query *)

(** Without the keys [msg], [legacy] and [processor] the call is the
    plain one. *)
Lemma other_keywords_id (cfg : config) :
  cfg !! "legacy" = None -> cfg !! "processor" = None ->
  other_keywords cfg = cfg.
Proof.
  intros Hl Hp. unfold other_keywords.
  rewrite (delete_id cfg "legacy" Hl). exact (delete_id cfg "processor" Hp).
Qed.

Lemma keyword_call_plain {A : Type}
    (f : registry -> message -> bool -> option Processor.t -> config -> result A)
    (processors : registry) (msg : message) (cfg : config) :
  cfg !! "msg" = None -> cfg !! "legacy" = None -> cfg !! "processor" = None ->
  keyword_call f processors msg cfg = f processors msg false None cfg.
Proof.
  intros Hm Hl Hp. unfold keyword_call, legacy_keyword, processor_keyword.
  rewrite (proj2 (contains_false cfg "msg") Hm).
  rewrite (other_keywords_id cfg Hl Hp), Hl, Hp. reflexivity.
Qed.

(** The keys [legacy] and [processor] are not among those a query hands
    on to dispatch and to the accessor. *)
Lemma other_keywords_lookup (cfg : config) :
  other_keywords cfg !! "legacy" = None /\
  other_keywords cfg !! "processor" = None.
Proof.
  unfold other_keywords. split.
  - rewrite lookup_delete_ne by discriminate. apply lookup_delete_eq.
  - apply lookup_delete_eq.
Qed.

(** A decorated query called with keywords that hold no processor, or a
    value that is false under [processor], when dispatch resolves. *)
Lemma keyword_call_resolved {A : Type} (cls : A)
    (f : registry -> message -> Processor.t -> config -> result A)
    (processors : registry) (msg : message) (cfg : config) (p : Processor.t) :
  cfg !! "msg" = None ->
  (forall v, cfg !! "processor" = Some v -> truthy v = false) ->
  msg2processor processors msg (other_keywords cfg) = Ok p ->
  keyword_call (legacy_condition cls (with_processor f)) processors msg cfg
  = match f processors msg p (other_keywords cfg) with
    | Ok a => Ok a
    | Raise e => if legacy_keyword cfg && is_KeyError e then Ok cls else Raise e
    end.
Proof.
  intros Hm Hfalsy Hd. unfold keyword_call, processor_keyword.
  rewrite (proj2 (contains_false cfg "msg") Hm).
  destruct (cfg !! "processor") as [v|] eqn:Hv; simpl.
  - unfold legacy_condition, with_processor. simpl.
    rewrite (Hfalsy v eq_refl), Hd. simpl.
    destruct (f processors msg p (other_keywords cfg)) as [a|[]],
      (legacy_keyword cfg); reflexivity.
  - apply query_resolved. exact Hd.
Qed.

(** A [msg] key among the keywords makes the call itself fail. *)
Lemma keyword_call_msg {A : Type}
    (f : registry -> message -> bool -> option Processor.t -> config -> result A)
    (processors : registry) (msg : message) (cfg : config) :
  is_Some (cfg !! "msg") ->
  keyword_call f processors msg cfg = Raise (OtherException "TypeError").
Proof.
  intros H. unfold keyword_call.
  rewrite (proj2 (contains_true cfg "msg") H). reflexivity.
Qed.

(** A true data value under [processor] is taken for the processor, and
    has no [subtitle]. *)
Lemma keyword_call_value_processor (processors : registry) (msg : message)
    (cfg : config) (v : value) :
  cfg !! "msg" = None -> cfg !! "processor" = Some v -> truthy v = true ->
  keyword_call msg2subtitle processors msg cfg
  = Raise (OtherException "AttributeError").
Proof.
  intros Hm Hv Ht. unfold keyword_call, processor_keyword.
  rewrite (proj2 (contains_false cfg "msg") Hm), Hv. simpl.
  unfold msg2subtitle, legacy_condition, with_processor. simpl.
  rewrite Ht. simpl. destruct (legacy_keyword cfg); reflexivity.
Qed.

Section ConglomerateMore.

Variable humanize : value -> result string.

(** X12: what [conglomerate] returns has the length of the list the
    processors left, every element of it bears [msg_ids], and the
    elements that bore [msg_ids] already are returned as and where they
    were; no assumption is made on the processors. *)
Theorem conglomerate_shape (l : list Processor.t)
    (messages mid out : list message) (cfg : config) :
  run_processors l messages cfg = Ok mid ->
  conglomerate humanize (ProcessorList l) messages cfg = Ok out ->
  length out = length mid /\
  Forall (fun r => contains r "msg_ids" = true) out /\
  (forall i msg,
      mid !! i = Some msg -> contains msg "msg_ids" = true ->
      out !! i = Some msg).
Proof.
  intros Hmid Hout.
  destruct (conglomerate_keeps_grouped humanize _ _ _ _ _ Hmid Hout) as [Hlen Hkeep].
  split; [exact Hlen|]. split; [|exact Hkeep].
  rewrite conglomerate_mapM, Hmid, bind_Ok in Hout.
  exact (proj1 (mapM_fake_coverage humanize _ _ _ _ Hout)).
Qed.

(** X15: a processor whose conglomerate step raises aborts the whole batch
    with its error: the processors after it are not run and no message
    is wrapped. *)
Theorem conglomerate_step_error_aborts (pre post : list Processor.t)
    (p : Processor.t) (messages mid : list message) (cfg : config) (e : exn) :
  run_processors pre messages cfg = Ok mid ->
  Processor.conglomerate p mid cfg = Raise e ->
  conglomerate humanize (ProcessorList (pre ++ p :: post)) messages cfg = Raise e.
Proof.
  intros Hpre Hp. rewrite conglomerate_mapM, run_processors_app, Hpre.
  simpl. rewrite Hp. reflexivity.
Qed.

(** Settles a query that [conglomerate] calls with its keywords. *)
Ltac settle_keyword_call Hm Hfalsy Hd :=
  rewrite (keyword_call_resolved _ _ _ _ _ _ Hm Hfalsy Hd);
  repeat match goal with
         | H : _ = Raise _ |- _ => rewrite H
         | H : _ = Ok _ |- _ => rewrite H
         end;
  simpl; try reflexivity.

(** X16: [conglomerate] hands its keywords on to the per-field queries.
    When the subtitle accessor of the processor an ungrouped message
    resolves to raises, and the elements before that message were dealt
    with, the whole batch fails with that error, unless the error is a
    [KeyError] and [legacy] is among the keywords with a true value. *)
Theorem conglomerate_query_error_aborts (l : list Processor.t)
    (messages pre post : list message) (msg : message) (cfg : config)
    (p : Processor.t) (e : exn) :
  run_processors l messages cfg = Ok (pre ++ msg :: post) ->
  Forall (fun m => exists fake,
            fake_if_ungrouped humanize (ProcessorList l) cfg m = Ok fake) pre ->
  contains msg "msg_ids" = false ->
  cfg !! "msg" = None ->
  (forall v, cfg !! "processor" = Some v -> truthy v = false) ->
  msg2processor (ProcessorList l) msg (other_keywords cfg) = Ok p ->
  Processor.subtitle p msg (other_keywords cfg) = Raise e ->
  legacy_keyword cfg && is_KeyError e = false ->
  conglomerate humanize (ProcessorList l) messages cfg = Raise e.
Proof.
  intros Hmid Hpre Hraw Hm Hfalsy Hd Hs He. rewrite conglomerate_mapM, Hmid, bind_Ok.
  apply mapM_raise; [exact Hpre|].
  rewrite (fake_if_ungrouped_raw _ _ _ _ Hraw). unfold fake_conglomerate.
  unfold msg2subtitle. rewrite (keyword_call_resolved _ _ _ _ _ _ Hm Hfalsy Hd), Hs, He.
  reflexivity.
Qed.

(** X17: an ungrouped message without a [timestamp] key fails the batch with
    [KeyError] once its subtitle, link, icon and secondary icon have been
    obtained. *)
Theorem conglomerate_missing_timestamp (l : list Processor.t)
    (messages pre post : list message) (msg : message) (cfg : config)
    (subtitle link icon secondary_icon : option string) :
  run_processors l messages cfg = Ok (pre ++ msg :: post) ->
  Forall (fun m => exists fake,
            fake_if_ungrouped humanize (ProcessorList l) cfg m = Ok fake) pre ->
  contains msg "msg_ids" = false ->
  keyword_call msg2subtitle (ProcessorList l) msg cfg = Ok subtitle ->
  keyword_call msg2link (ProcessorList l) msg cfg = Ok link ->
  keyword_call msg2icon (ProcessorList l) msg cfg = Ok icon ->
  keyword_call msg2secondary_icon (ProcessorList l) msg cfg = Ok secondary_icon ->
  msg !! "timestamp" = None ->
  conglomerate humanize (ProcessorList l) messages cfg
  = Raise (KeyError "timestamp").
Proof.
  intros Hmid Hpre Hraw H1 H2 H3 H4 Ht. rewrite conglomerate_mapM, Hmid, bind_Ok.
  apply mapM_raise; [exact Hpre|].
  rewrite (fake_if_ungrouped_raw _ _ _ _ Hraw). unfold fake_conglomerate, getitem.
  rewrite H1, H2, H3, H4, Ht. reflexivity.
Qed.

(** X14: [conglomerate] returns, with a list as long as the one the
    processors left, when the processors' steps return, the keywords hold
    no true value under [processor], and every ungrouped message the
    processors leave has a [timestamp] that humanizes and a [msg_id], and
    resolves to a processor whose subtitle, link, icon, secondary icon,
    usernames and packages accessors return; dispatch and accessors get
    the keywords other than [legacy] and [processor], and [msg] is not
    among the keywords. *)
Theorem conglomerate_succeeds (l : list Processor.t)
    (messages mid : list message) (cfg : config) :
  run_processors l messages cfg = Ok mid ->
  cfg !! "msg" = None ->
  (forall v, cfg !! "processor" = Some v -> truthy v = false) ->
  Forall (fun msg =>
            contains msg "msg_ids" = false ->
            (exists t h, msg !! "timestamp" = Some t /\ humanize t = Ok h) /\
            is_Some (msg !! "msg_id") /\
            exists p v1 v2 v3 v4 v5 v6,
              msg2processor (ProcessorList l) msg (other_keywords cfg) = Ok p /\
              Processor.subtitle p msg (other_keywords cfg) = Ok v1 /\
              Processor.link p msg (other_keywords cfg) = Ok v2 /\
              Processor.icon p msg (other_keywords cfg) = Ok v3 /\
              Processor.secondary_icon p msg (other_keywords cfg) = Ok v4 /\
              Processor.usernames p msg (other_keywords cfg) = Ok v5 /\
              Processor.packages p msg (other_keywords cfg) = Ok v6) mid ->
  exists out,
    conglomerate humanize (ProcessorList l) messages cfg = Ok out /\
    length out = length mid.
Proof.
  intros Hmid Hm Hfalsy Hall.
  assert (exists out, conglomerate humanize (ProcessorList l) messages cfg = Ok out)
    as [out Hout].
  { apply (conglomerate_returns humanize l messages mid cfg Hmid).
    eapply Forall_impl; [exact Hall|]. cbv beta.
    intros msg Hmsg Hraw.
    destruct (Hmsg Hraw)
      as ((t & h & Ht & Hh) & Hid
          & p & v1 & v2 & v3 & v4 & v5 & v6 & Hd & H1 & H2 & H3 & H4 & H5 & H6).
    apply fake_conglomerate_returns.
    - exists t. exact Ht.
    - exact Hid.
    - intros t' Ht'. exists h. congruence.
    - exists v1. unfold msg2subtitle. settle_keyword_call Hm Hfalsy Hd.
    - exists v2. unfold msg2link. settle_keyword_call Hm Hfalsy Hd.
    - exists v3. unfold msg2icon. settle_keyword_call Hm Hfalsy Hd.
    - exists v4. unfold msg2secondary_icon. settle_keyword_call Hm Hfalsy Hd.
    - exists v5. unfold msg2usernames. settle_keyword_call Hm Hfalsy Hd.
    - exists v6. unfold msg2packages. settle_keyword_call Hm Hfalsy Hd. }
  exists out. split; [exact Hout|].
  exact (proj1 (conglomerate_keeps_grouped humanize _ _ _ _ _ Hmid Hout)).
Qed.


End ConglomerateMore.

Lemma conglomerate_shape_witness :
  exists out,
    conglomerate Examples.clock (ProcessorList [Examples.topical (VBool true)])
      [Examples.commit; Examples.grouped; Examples.vote] ∅ = Ok out /\
    length out = 3 /\
    Forall (fun r => contains r "msg_ids" = true) out.
Proof.
  assert (exists out,
             conglomerate Examples.clock
               (ProcessorList [Examples.topical (VBool true)])
               [Examples.commit; Examples.grouped; Examples.vote] ∅ = Ok out)
    as [out Hout] by (eexists; reflexivity).
  exists out. split; [exact Hout|].
  destruct (conglomerate_shape Examples.clock [Examples.topical (VBool true)]
              [Examples.commit; Examples.grouped; Examples.vote]
              [Examples.commit; Examples.grouped; Examples.vote] out ∅
              eq_refl Hout) as (Hlen & Hall & _).
  split; [exact Hlen | exact Hall].
Defined.

(** Three raw messages conglomerated, and the result conglomerated again. *)
Lemma conglomerate_twice_witness :
  exists out,
    conglomerate Examples.clock
      (ProcessorList [Examples.pairing; Examples.topical (VBool true)])
      [Examples.commit; Examples.vote; Examples.build] ∅ = Ok out /\
    conglomerate Examples.clock
      (ProcessorList [Examples.pairing; Examples.topical (VBool true)]) out ∅
    = Ok out.
Proof.
  assert (exists out,
             conglomerate Examples.clock
               (ProcessorList [Examples.pairing; Examples.topical (VBool true)])
               [Examples.commit; Examples.vote; Examples.build] ∅ = Ok out)
    as [out Hout] by (eexists; reflexivity).
  exists out. split; [exact Hout|].
  apply (conglomerate_twice Examples.clock
           [Examples.pairing; Examples.topical (VBool true)]
           [Examples.commit; Examples.vote; Examples.build] out ∅).
  - constructor; [apply pairing_keeps_grouped|].
    constructor; [apply topical_keeps_grouped|]. constructor.
  - exact Hout.
Defined.

Lemma conglomerate_step_error_aborts_witness :
  conglomerate Examples.clock
    (ProcessorList [Examples.pairing; Examples.broken (OtherException "ValueError");
                    Examples.topical (VBool true)])
    [Examples.commit; Examples.vote] ∅
  = Raise (OtherException "ValueError").
Proof.
  apply (conglomerate_step_error_aborts Examples.clock
           [Examples.pairing] [Examples.topical (VBool true)]
           (Examples.broken (OtherException "ValueError"))
           [Examples.commit; Examples.vote] _ ∅ (OtherException "ValueError")
           eq_refl eq_refl).
Defined.

(** The message [bare] has no [topic], which the subtitle accessor asks
    for: called without [legacy], the batch fails although the record
    before it and the message after it are in order. *)
Lemma conglomerate_query_error_aborts_witness :
  conglomerate Examples.clock (ProcessorList [Examples.topical (VBool true)])
    [Examples.grouped; Examples.bare; Examples.commit] ∅
  = Raise (KeyError "topic").
Proof.
  apply (conglomerate_query_error_aborts Examples.clock
           [Examples.topical (VBool true)]
           [Examples.grouped; Examples.bare; Examples.commit]
           [Examples.grouped] [Examples.commit] Examples.bare ∅
           (Examples.topical (VBool true)) (KeyError "topic") eq_refl).
  - constructor; [exists Examples.grouped; reflexivity | constructor].
  - reflexivity.
  - reflexivity.
  - intros v Hv. discriminate Hv.
  - reflexivity.
  - reflexivity.
  - reflexivity.
Defined.

Lemma conglomerate_missing_timestamp_witness :
  conglomerate Examples.clock (ProcessorList [Examples.topical (VBool true)])
    [Examples.undated] ∅
  = Raise (KeyError "timestamp").
Proof.
  apply (conglomerate_missing_timestamp Examples.clock
           [Examples.topical (VBool true)] [Examples.undated] [] []
           Examples.undated ∅ (Some "something happened") None None None eq_refl).
  - constructor.
  - reflexivity.
  - reflexivity.
  - reflexivity.
  - reflexivity.
  - reflexivity.
  - reflexivity.
Defined.

Lemma conglomerate_succeeds_witness :
  exists out,
    conglomerate Examples.clock (ProcessorList [Examples.topical (VBool true)])
      [Examples.commit; Examples.grouped] ∅ = Ok out /\
    length out = 2.
Proof.
  apply (conglomerate_succeeds Examples.clock [Examples.topical (VBool true)]
           [Examples.commit; Examples.grouped]
           [Examples.commit; Examples.grouped] ∅ eq_refl).
  - reflexivity.
  - intros v Hv. discriminate Hv.
  - constructor; [|constructor; [|constructor]].
    + intros _. split; [exists (VNum 100), "just now"%string; split; reflexivity|].
      split; [exists (VStr "1"); reflexivity|].
      exists (Examples.topical (VBool true)), (Some "something happened"),
        None, None, None, {["ralph"]}, ∅.
      repeat split.
    + intros H. discriminate H.
Defined.

